(** * azure-pipelines-ecs-controller-lambda: a shallow embedding

    The Go sources embedded here are [main.go] (the Lambda [init] and
    [handler]), the type declarations ([ECSTaskConfig], [ADOPayload],
    [ADOConfig], ...) and the helper functions ([RunFargateTask],
    [GetTaskLastStatus], [GenerateClientToken], [ADOCallback],
    [readResponse], ...).

    Go strings are byte strings: they are modelled by [string] (a list of
    8-bit [ascii]); byte slices are lists of [Z] in [0, 256).  The AWS SDK,
    [net/http], [encoding/json] and [net/url] are outside the repository:
    their calls are answered by a [World] that every theorem quantifies
    over.  [crypto/sha256] and [encoding/base64] are written out, since the
    client token is their composition.  The [slog] calls and the [ctx]
    argument take no part in the control flow and are left out; a
    cancelled context shows as the error the world answers a call with. *)

From Stdlib Require Import ZArith String Ascii List Lia Bool DecimalString.
From stdpp Require Import base option list gmap strings.
Import ListNotations.

Local Open Scope string_scope.
Local Open Scope list_scope.
Local Open Scope Z_scope.

(** ** Byte strings *)

Definition bytes_of_string (s : string) : list Z :=
  map (fun c => Z.of_N (N_of_ascii c)) (list_ascii_of_string s).

(** Go's [len(s)] on a string, as an integer. *)
Definition len (s : string) : Z := Z.of_nat (String.length s).

(** ** crypto/sha256 (FIPS 180-4), on 32-bit words held in [Z] *)

Module sha256.

Definition mask32 (x : Z) : Z := Z.land x 0xffffffff.
Definition add32 (x y : Z) : Z := mask32 (x + y).
Definition rotr (n x : Z) : Z :=
  Z.lor (Z.shiftr x n) (mask32 (Z.shiftl x (32 - n))).
Definition not32 (x : Z) : Z := Z.lxor x 0xffffffff.

Definition Ch (x y z : Z) : Z := Z.lxor (Z.land x y) (Z.land (not32 x) z).
Definition Maj (x y z : Z) : Z :=
  Z.lxor (Z.lxor (Z.land x y) (Z.land x z)) (Z.land y z).
Definition Sigma0 (x : Z) : Z := Z.lxor (Z.lxor (rotr 2 x) (rotr 13 x)) (rotr 22 x).
Definition Sigma1 (x : Z) : Z := Z.lxor (Z.lxor (rotr 6 x) (rotr 11 x)) (rotr 25 x).
Definition sigma0 (x : Z) : Z := Z.lxor (Z.lxor (rotr 7 x) (rotr 18 x)) (Z.shiftr x 3).
Definition sigma1 (x : Z) : Z := Z.lxor (Z.lxor (rotr 17 x) (rotr 19 x)) (Z.shiftr x 10).

(** The primes below [n], by trial division. *)
Definition primes_below (n : nat) : list Z :=
  filter (fun p => forallb (fun d => negb (p mod d =? 0)) (map Z.of_nat (seq 2 (Z.to_nat p - 2))))
         (map Z.of_nat (seq 2 (n - 2))).

(** The integer cube root, one bit at a time from bit [k - 1] down. *)
Fixpoint cbrt_bits (k : nat) (n acc : Z) : Z :=
  match k with
  | O => acc
  | S k' =>
      let c := acc + 2 ^ Z.of_nat k' in
      if c * c * c <=? n then cbrt_bits k' n c else cbrt_bits k' n acc
  end.

(** The round constants: the first 32 bits of the fractional parts of the
    cube roots of the first 64 primes. *)
Definition K : list Z :=
  Eval cbv in map (fun p => mask32 (cbrt_bits 36 (p * 2 ^ 96) 0)) (primes_below 312).

(** The eight working variables [a..h], also the chaining value. *)
Definition state : Type := Z * Z * Z * Z * Z * Z * Z * Z.

(** The initial value: the first 32 bits of the fractional parts of the
    square roots of the first 8 primes. *)
Definition frac_sqrt (p : Z) : Z := mask32 (Z.sqrt (p * 2 ^ 64)).

Definition init : state :=
  (frac_sqrt 2, frac_sqrt 3, frac_sqrt 5, frac_sqrt 7,
   frac_sqrt 11, frac_sqrt 13, frac_sqrt 17, frac_sqrt 19).

(** Big-endian 32-bit words of a block. *)
Fixpoint words (bs : list Z) : list Z :=
  match bs with
  | b0 :: b1 :: b2 :: b3 :: rest =>
      Z.lor (Z.lor (Z.lor (Z.shiftl b0 24) (Z.shiftl b1 16)) (Z.shiftl b2 8)) b3
      :: words rest
  | _ => []
  end.

(** Message schedule: [win] holds the sixteen most recent words, oldest
    first; each step emits the oldest and appends
    [sigma1 w(t-2) + w(t-7) + sigma0 w(t-15) + w(t-16)]. *)
Fixpoint schedule (n : nat) (win : list Z) : list Z :=
  match n with
  | O => []
  | S n' =>
      match win with
      | [] => []
      | w0 :: rest =>
          let w := add32 (add32 (add32 (sigma1 (nth 14 win 0)) (nth 9 win 0))
                                (sigma0 (nth 1 win 0))) w0 in
          w0 :: schedule n' (rest ++ [w])
      end
  end.

Definition round (s : state) (kw : Z * Z) : state :=
  let '(a, b, c, d, e, f, g, h) := s in
  let t1 := add32 (add32 (add32 (add32 h (Sigma1 e)) (Ch e f g)) (fst kw)) (snd kw) in
  let t2 := add32 (Sigma0 a) (Maj a b c) in
  (add32 t1 t2, a, b, c, add32 d t1, e, f, g).

Definition compress (s : state) (block : list Z) : state :=
  let '(a, b, c, d, e, f, g, h) := s in
  let '(a', b', c', d', e', f', g', h') :=
    fold_left round (combine K (schedule 64 (words block))) s in
  (add32 a a', add32 b b', add32 c c', add32 d d',
   add32 e e', add32 f f', add32 g g', add32 h h').

Fixpoint blocks (n : nat) (p : list Z) (s : state) : state :=
  match n with
  | O => s
  | S n' =>
      match p with
      | [] => s
      | _ => blocks n' (skipn 64 p) (compress s (firstn 64 p))
      end
  end.

Definition be32 (w : Z) : list Z :=
  [ Z.land (Z.shiftr w 24) 0xff; Z.land (Z.shiftr w 16) 0xff;
    Z.land (Z.shiftr w 8) 0xff; Z.land w 0xff ].

Definition be64 (w : Z) : list Z := be32 (Z.shiftr w 32) ++ be32 w.

(** Padding: 0x80, zeros up to 56 mod 64, the bit length on 64 bits. *)
Definition pad (msg : list Z) : list Z :=
  let n := Z.of_nat (length msg) in
  msg ++ [0x80] ++ repeat 0 (Z.to_nat ((55 - n) mod 64))
      ++ be64 (Z.land (Z.shiftl n 3) 0xffffffffffffffff).

(** [sha256.Sum256]: the result is Go's [[32]byte]. *)
Definition Sum256 (msg : list Z) : list Z :=
  let p := pad msg in
  let '(a, b, c, d, e, f, g, h) := blocks (S (Nat.div (length p) 64)) p init in
  be32 a ++ be32 b ++ be32 c ++ be32 d ++ be32 e ++ be32 f ++ be32 g ++ be32 h.

End sha256.

(** ** encoding/base64, [StdEncoding] (RFC 4648 alphabet, [=] padding) *)

Module base64.

Definition encodeStd : string :=
  "ABCDEFGHIJKLMNOPQRSTUVWXYZabcdefghijklmnopqrstuvwxyz0123456789+/".

Definition StdPadding : ascii := "="%char.

Definition enc (i : Z) : ascii :=
  match String.get (Z.to_nat (Z.land i 0x3f)) encodeStd with
  | Some c => c
  | None => StdPadding
  end.

Fixpoint EncodeToString (src : list Z) : string :=
  match src with
  | [] => EmptyString
  | [b0] =>
      let v := Z.shiftl b0 16 in
      String (enc (Z.shiftr v 18)) (String (enc (Z.shiftr v 12))
        (String StdPadding (String StdPadding EmptyString)))
  | [b0; b1] =>
      let v := Z.lor (Z.shiftl b0 16) (Z.shiftl b1 8) in
      String (enc (Z.shiftr v 18)) (String (enc (Z.shiftr v 12))
        (String (enc (Z.shiftr v 6)) (String StdPadding EmptyString)))
  | b0 :: b1 :: b2 :: rest =>
      let v := Z.lor (Z.lor (Z.shiftl b0 16) (Z.shiftl b1 8)) b2 in
      String (enc (Z.shiftr v 18)) (String (enc (Z.shiftr v 12))
        (String (enc (Z.shiftr v 6)) (String (enc v) (EncodeToString rest))))
  end.

(** The characters an encoding is made of. *)
Definition is_std_char (c : ascii) : bool :=
  existsb (Ascii.eqb c) (list_ascii_of_string encodeStd) || Ascii.eqb c StdPadding.

End base64.

(** ** GenerateClientToken *)

Definition GenerateClientToken (input : string) : string :=
  let hash := sha256.Sum256 (bytes_of_string input) in
  let encoded := base64.EncodeToString hash in
  if 64 <? len encoded then substring 0 64 encoded else encoded.


(** ** Errors, [fmt] and [strings] *)

(** A Go [error]: a message, or a message wrapping a cause ([%w]). *)
Inductive error : Type :=
| errors_New (text : string)
| Wrap (text : string) (cause : error).

Fixpoint Error (e : error) : string :=
  match e with
  | errors_New text => text
  | Wrap text cause => text +:+ Error cause
  end.

(** [%d] of [fmt]. *)
Definition fmt_d (n : Z) : string := NilZero.string_of_int (Z.to_int n).

(** [strings.Split(s, sep)] for a one-byte separator: the pieces between
    the separators, a single piece when there is none (also for the empty string). *)
Fixpoint strings_Split (s : string) (sep : ascii) : list string :=
  match s with
  | EmptyString => [EmptyString]
  | String c rest =>
      if Ascii.eqb c sep then EmptyString :: strings_Split rest sep
      else match strings_Split rest sep with
           | piece :: pieces => String c piece :: pieces
           | [] => [String c EmptyString]
           end
  end.

(** ** The repository's types *)

Record ECSTaskConfig : Type := {
  Cluster : string;
  TaskDefinition : string;
  ClientToken : string;
  Subnets : list string;
  SecurityGroups : list string
}.

Module ECSTaskReadConfig.
Record t : Type := mk { Cluster : string; TaskARN : string }.
End ECSTaskReadConfig.

Record ADOPayload : Type := {
  PlanURL : string;
  PlanID : string;
  ProjectID : string;
  HubName : string;
  JobID : string;
  TimelineID : string;
  TaskInstanceID : string;
  AuthToken : string
}.

Record ADOConfig : Type := {
  Instance : string;
  APIVersion : string;
  AuthUsername : string
}.

(** [Config] and [Payload] are pointers: [None] is [nil]. *)
Record ADOCallbackConfig : Type := {
  Config : option ADOConfig;
  Payload : option ADOPayload;
  Result : string
}.

(** The zero values that [new(T)] allocates. *)
Definition new_ECSTaskConfig : ECSTaskConfig :=
  {| Cluster := EmptyString; TaskDefinition := EmptyString; ClientToken := EmptyString;
     Subnets := []; SecurityGroups := [] |}.

Definition new_ADOConfig : ADOConfig :=
  {| Instance := EmptyString; APIVersion := EmptyString; AuthUsername := EmptyString |}.

(** ** The AWS SDK and net/http types the code builds and reads *)

Module aws.
(** [aws.ToString]: the pointee, or the empty string for [nil]. *)
Definition ToString (p : option string) : string := default EmptyString p.
End aws.

Module types.
Inductive LaunchType := LaunchTypeEc2 | LaunchTypeFargate | LaunchTypeExternal.
Inductive PropagateTags := PropagateTagsTaskDefinition | PropagateTagsService | PropagateTagsNone.
Inductive AssignPublicIp := AssignPublicIpEnabled | AssignPublicIpDisabled.

Record AwsVpcConfiguration : Type := {
  vpc_Subnets : list string;
  vpc_SecurityGroups : list string;
  vpc_AssignPublicIp : AssignPublicIp
}.

Record Task : Type := { TaskArn : option string; LastStatus : option string }.
End types.

Module ecs.
Record RunTaskInput : Type := {
  in_Cluster : option string;
  in_TaskDefinition : option string;
  in_Count : option Z;
  in_LaunchType : types.LaunchType;
  in_PropagateTags : types.PropagateTags;
  in_EnableECSManagedTags : bool;
  in_EnableExecuteCommand : bool;
  in_ClientToken : option string;
  in_NetworkConfiguration : option types.AwsVpcConfiguration
}.

Record RunTaskOutput : Type := { run_Tasks : list types.Task }.

Record DescribeTasksInput : Type := {
  desc_Cluster : option string;
  desc_Tasks : list string
}.

Record DescribeTasksOutput : Type := { Tasks : list types.Task }.
End ecs.

Module http.
(** [http.Header] maps a canonical key to its values. *)
Abbreviation Header := (gmap string (list string)).

Record Request : Type := {
  Method : string;
  URL : string;
  ReqHeader : Header;
  ReqBody : string
}.

(** A response as [readResponse] sees it: the status code and what
    [io.ReadAll(res.Body)] yields, the bytes read and the read error. *)
Record Response : Type := {
  StatusCode : Z;
  ReadAll : string * option error
}.

(** [Header.Set]: replaces the values of the key.  The two keys the code
    sets, [Accept] and [Authorization], are in canonical form. *)
Definition Set_ (h : Header) (key value : string) : Header :=
  <[key := [value]]> h.
End http.

(** [time.Second], in nanoseconds. *)
Definition time_Second : Z := 1000000000.

(** The SQS batch: [type Event events.SQSEvent]. *)
Record SQSMessage : Type := { MessageId : string; Body : string }.
Record Event : Type := { Records : list SQSMessage }.

(** ** The outside world

    Every call that leaves the process is recorded, with its answer, in a
    trace; the world answers a call from the trace so far. *)

Inductive Effect : Type :=
| RunTask (input : ecs.RunTaskInput) (out : ecs.RunTaskOutput + error)
| DescribeTasks (input : ecs.DescribeTasksInput) (out : ecs.DescribeTasksOutput + error)
| Sleep (d : Z)
| Do (req : http.Request) (out : http.Response + error).

Record World : Type := {
  (** [json.Unmarshal] into a [*ADOPayload]: the pointer stays [nil] on
      the JSON value [null]. *)
  json_Unmarshal : string -> option ADOPayload + error;
  (** [json.Marshal] of a [map[string]string]. *)
  json_Marshal : gmap string string -> string + error;
  (** [url.Parse], the one way [http.NewRequest("POST", ...)] fails. *)
  url_Parse : string -> option error;
  client_RunTask : list Effect -> ecs.RunTaskInput -> ecs.RunTaskOutput + error;
  client_DescribeTasks :
    list Effect -> ecs.DescribeTasksInput -> ecs.DescribeTasksOutput + error;
  client_Do : list Effect -> http.Request -> http.Response + error
}.

(** ** Process start: the environment and [init] *)

(** What a start-up step comes to: it completes, the process exits
    ([os.Exit]), or it panics. *)
Inductive Startup (A : Type) : Type :=
| Up (a : A)
| Exit (code : Z)
| Crash (msg : string).
Arguments Up {A} a.
Arguments Exit {A} code.
Arguments Crash {A} msg.

Definition startup_bind {A B} (m : Startup A) (k : A -> Startup B) : Startup B :=
  match m with
  | Up a => k a
  | Exit code => Exit code
  | Crash msg => Crash msg
  end.

Notation "'let!' x ':=' m 'in' k" := (startup_bind m (fun x => k))
  (at level 10, x name, m at level 100, k at level 200).

Definition nil_dereference : string :=
  "runtime error: invalid memory address or nil pointer dereference".

Section WithEnviron.

(** [os.Getenv] reads this map; an unset variable reads as the empty
    string. *)
Variable environ : gmap string string.

Definition os_Getenv (name : string) : string := default EmptyString (environ !! name).

Definition ReadRequiredEnvVar (name : string) : Startup string :=
  let value := os_Getenv name in
  if String.eqb value EmptyString then Exit 1 else Up value.

Definition ReadEnvVarWithDefault (name defaultVal : string) : string :=
  let value := os_Getenv name in
  if String.eqb value EmptyString then defaultVal else value.

(** [ECSTaskConfig.ReadFromEnv]; the receiver is never [nil] where
    the code calls it. *)
Definition ECSTaskConfig_ReadFromEnv (config : ECSTaskConfig) : Startup ECSTaskConfig :=
  let! cluster := ReadRequiredEnvVar "ECS_CLUSTER" in
  let! taskDefinition := ReadRequiredEnvVar "ECS_TASK_DEFINITION" in
  let! subnetIDsStr := ReadRequiredEnvVar "SUBNET_IDS" in
  let! securityGroupIDsStr := ReadRequiredEnvVar "SECURITY_GROUP_IDS" in
  Up {| Cluster := cluster;
        TaskDefinition := taskDefinition;
        ClientToken := ClientToken config;
        Subnets := strings_Split subnetIDsStr ","%char;
        SecurityGroups := strings_Split securityGroupIDsStr ","%char |}.

(** [ADOConfig.ReadFromEnv] on a receiver that may be [nil]: the
    environment is read first, the first field assignment dereferences
    the receiver. *)
Definition ADOConfig_ReadFromEnv (config : option ADOConfig) : Startup ADOConfig :=
  let adoDomain := ReadEnvVarWithDefault "ADO_DOMAIN" "dev.azure.com" in
  let! adoOrg := ReadRequiredEnvVar "ADO_ORG" in
  match config with
  | None => Crash nil_dereference
  | Some _ =>
      Up {| Instance := adoDomain +:+ "/" +:+ adoOrg;
            APIVersion := ReadEnvVarWithDefault "ADO_API_VERSION" "7.1-preview.3";
            AuthUsername := ReadEnvVarWithDefault "ADO_AUTH_USERNAME" "ado-callback" |}
  end.

End WithEnviron.

(** The package-level variables [taskCfg] and [adoCfg]: pointers, [nil]
    until [init] assigns them.  The third pointer, [ecsClient], is not a
    field: the calls made on it are answered by the [World], which stands
    for an allocated client; what a nil client does inside the SDK is not
    modelled. *)
Record Globals : Type := {
  taskCfg : option ECSTaskConfig;
  adoCfg : option ADOConfig
}.

(** [init], in the order of its statements.  [loadDefaultConfig] is what
    [config.LoadDefaultConfig] answers ([Some err] on failure). *)
Definition init (environ : gmap string string) (loadDefaultConfig : option error)
  : Startup Globals :=
  (* taskCfg = new(ECSTaskConfig); taskCfg.ReadFromEnv() *)
  let! taskCfg1 := ECSTaskConfig_ReadFromEnv environ new_ECSTaskConfig in
  (* adoCfg.ReadFromEnv(), adoCfg still being nil *)
  let! _ := ADOConfig_ReadFromEnv environ None in
  (* adoCfg = new(ADOConfig) *)
  let adoCfg1 := new_ADOConfig in
  match loadDefaultConfig with
  | Some _ => Exit 1
  | None => Up {| taskCfg := Some taskCfg1; adoCfg := Some adoCfg1 |}
  end.

(** ** The handler's computations

    A computation runs from a state (the package-level variables and the
    trace of calls made so far) and either yields a value, panics, or is
    still polling when the fuel of the unbounded [for] loop is spent. *)

Record State : Type := {
  globals : Globals;
  trace : list Effect
}.

Inductive Outcome (A : Type) : Type :=
| Val (a : A)
| Panic (msg : string)
| OutOfFuel.
Arguments Val {A} a.
Arguments Panic {A} msg.
Arguments OutOfFuel {A}.

Definition M (A : Type) : Type := State -> Outcome A * State.

Definition ret {A} (a : A) : M A := fun st => (Val a, st).

Definition bind {A B} (m : M A) (k : A -> M B) : M B :=
  fun st =>
    match m st with
    | (Val a, st') => k a st'
    | (Panic msg, st') => (Panic msg, st')
    | (OutOfFuel, st') => (OutOfFuel, st')
    end.

Definition panic {A} (msg : string) : M A := fun st => (Panic msg, st).

Notation "'do' x '<-' m ';' k" := (bind m (fun x => k))
  (at level 10, x pattern, m at level 100, k at level 200,
   format "'[v' 'do'  x  '<-'  m ';' '/' k ']'").

(** The state after further calls. *)
Definition push (st : State) (es : list Effect) : State :=
  {| globals := globals st; trace := trace st ++ es |}.

Definition emit (e : Effect) : M unit := fun st => (Val tt, push st [e]).

(** Dereference of a pointer. *)
Definition deref {A} (p : option A) : M A :=
  match p with
  | Some a => ret a
  | None => panic nil_dereference
  end.

(** [s[i]] on a slice. *)
Definition index {A} (s : list A) (i : nat) : M A :=
  match s !! i with
  | Some a => ret a
  | None =>
      panic ("runtime error: index out of range [" +:+ fmt_d (Z.of_nat i)
             +:+ "] with length " +:+ fmt_d (Z.of_nat (length s)))
  end.

Definition get_taskCfg : M (option ECSTaskConfig) :=
  fun st => (Val (taskCfg (globals st)), st).

Definition get_adoCfg : M (option ADOConfig) :=
  fun st => (Val (adoCfg (globals st)), st).

Definition set_taskCfg_pointee (c : ECSTaskConfig) : M unit :=
  fun st =>
    (Val tt, {| globals := {| taskCfg := Some c; adoCfg := adoCfg (globals st) |};
                trace := trace st |}).

(** [ECSTaskConfig.SetClientToken], through the pointer [taskCfg]: the
    token is computed, then stored in the pointee. *)
Definition with_ClientToken (c : ECSTaskConfig) (token : string) : ECSTaskConfig :=
  {| Cluster := Cluster c; TaskDefinition := TaskDefinition c;
     ClientToken := token;
     Subnets := Subnets c; SecurityGroups := SecurityGroups c |}.

Definition SetClientToken (input : string) : M unit :=
  let token := GenerateClientToken input in
  do config <- get_taskCfg;
  do c <- deref config;
  set_taskCfg_pointee (with_ClientToken c token).

Definition ADOEventsURL (payload : ADOPayload) (instance apiVersion : string) : string :=
  "https://" +:+ instance +:+ "/" +:+ ProjectID payload
  +:+ "/_apis/distributedtask/hubs/" +:+ HubName payload
  +:+ "/plans/" +:+ PlanID payload +:+ "/events?api-version=" +:+ apiVersion.

(** Modelled from the spec: [GetAuth], the method of the ADO configuration
    that [ADOCallback] calls for the token of the Authorization header.
    The source has no such method: only a commented-out declaration is
    left of it.  The spec says of the header that it carries the raw,
    unencoded job access token, that the configured user name is unused in
    it, and that the base64 encoding of username:token is dead code: the
    method gives the token back as it is. *)
Definition GetAuth (config : ADOConfig) (token : string) : string := token.

(** The [headers] map literal of [ADOCallback]. *)
Definition callback_headers (token : string) : gmap string string :=
  <["Accept" := "application/json"]>
    (<["Authorization" := "Bearer " +:+ token]> ∅).

(** The [body] map literal of [ADOCallback]. *)
Definition callback_body (payload : ADOPayload) (result : string) : gmap string string :=
  <["name" := "TaskCompleted"]>
    (<["jobId" := JobID payload]>
       (<["taskId" := TaskInstanceID payload]>
          (<["result" := result]> ∅))).

(** [for k, v := range headers { req.Header.Set(k, v) }]: a fold over the
    map, in whatever order the map is ranged over. *)
Definition set_headers (req : http.Request) (headers : gmap string string) : http.Request :=
  {| http.Method := http.Method req;
     http.URL := http.URL req;
     http.ReqHeader := map_fold (fun k v h => http.Set_ h k v) (http.ReqHeader req) headers;
     http.ReqBody := http.ReqBody req |}.

(** The [ecs.DescribeTasksInput] literal of [GetTaskLastStatus]. *)
Definition describe_input (cluster taskARN : string) : ecs.DescribeTasksInput :=
  {| ecs.desc_Cluster := Some cluster; ecs.desc_Tasks := [taskARN] |}.

(** The [ecs.RunTaskInput] literal of [RunFargateTask]. *)
Definition run_input (c : ECSTaskConfig) : ecs.RunTaskInput :=
  {| ecs.in_Cluster := Some (Cluster c);
     ecs.in_TaskDefinition := Some (TaskDefinition c);
     ecs.in_Count := Some 1;
     ecs.in_LaunchType := types.LaunchTypeFargate;
     ecs.in_PropagateTags := types.PropagateTagsTaskDefinition;
     ecs.in_EnableECSManagedTags := true;
     ecs.in_EnableExecuteCommand := true;
     ecs.in_ClientToken := Some (ClientToken c);
     ecs.in_NetworkConfiguration :=
       Some {| types.vpc_Subnets := Subnets c;
               types.vpc_SecurityGroups := SecurityGroups c;
               types.vpc_AssignPublicIp := types.AssignPublicIpEnabled |} |}.

(** [readResponse]: the bytes and the error it returns. *)
Definition readResponse (res : http.Response) : string * option error :=
  if (http.StatusCode res <? 200) || (399 <? http.StatusCode res) then
    (EmptyString,
     Some (errors_New ("unexpected status code: " +:+ fmt_d (http.StatusCode res))))
  else
    match http.ReadAll res with
    | (data, Some err) => (data, Some (Wrap "failed to read response body: " err))
    | (data, None) => (data, None)
    end.

Section WithWorld.

Variable w : World.

Definition call_RunTask (input : ecs.RunTaskInput) : M (ecs.RunTaskOutput + error) :=
  fun st =>
    let out := client_RunTask w (trace st) input in
    (Val out, push st [RunTask input out]).

Definition call_DescribeTasks (input : ecs.DescribeTasksInput)
  : M (ecs.DescribeTasksOutput + error) :=
  fun st =>
    let out := client_DescribeTasks w (trace st) input in
    (Val out, push st [DescribeTasks input out]).

Definition call_Do (req : http.Request) : M (http.Response + error) :=
  fun st =>
    let out := client_Do w (trace st) req in
    (Val out, push st [Do req out]).

Definition time_Sleep (d : Z) : M unit := emit (Sleep d).

(** [http.NewRequest("POST", url, body)]. *)
Definition http_NewRequest (method url body : string) : http.Request + error :=
  match url_Parse w url with
  | Some err => inr err
  | None =>
      inl {| http.Method := method; http.URL := url;
             http.ReqHeader := ∅; http.ReqBody := body |}
  end.

Definition RunFargateTask (config : ECSTaskConfig) : M (ecs.RunTaskOutput + error) :=
  call_RunTask (run_input config).

(** [GetTaskLastStatus]: the named results [(status, err)]. *)
Definition GetTaskLastStatus (config : ECSTaskReadConfig.t) : M (string * option error) :=
  do result <- call_DescribeTasks
                 (describe_input (ECSTaskReadConfig.Cluster config)
                                 (ECSTaskReadConfig.TaskARN config));
  match result with
  | inr err => ret (EmptyString, Some err)
  | inl result =>
      if 0 <? Z.of_nat (length (ecs.Tasks result)) then
        do t <- index (ecs.Tasks result) 0;
        ret (aws.ToString (types.LastStatus t), None)
      else
        ret (EmptyString,
             Some (errors_New ("failed to describe task "
                               +:+ ECSTaskReadConfig.TaskARN config)))
  end.

(** [ADOCallback]: the named results [(data, err)]. *)
Definition ADOCallback (config : ADOCallbackConfig) : M (string * option error) :=
  do payload <- deref (Payload config);
  do adoConfig <- deref (Config config);
  let token := GetAuth adoConfig (AuthToken payload) in
  let headers := callback_headers token in
  let body := callback_body payload (Result config) in
  match json_Marshal w body with
  | inr err => ret (EmptyString, Some (Wrap "failed to marshal JSON body: " err))
  | inl bodyBytes =>
      let url := ADOEventsURL payload (Instance adoConfig) (APIVersion adoConfig) in
      match http_NewRequest "POST" url bodyBytes with
      | inr err => ret (EmptyString, Some (Wrap "failed to create HTTP request: " err))
      | inl req =>
          let req := set_headers req headers in
          do res <- call_Do req;
          match res with
          | inr err =>
              ret (EmptyString, Some (Wrap "failed to execute HTTP request: " err))
          | inl res =>
              match readResponse res with
              | (_, Some err) => ret (EmptyString, Some err)
              | (resBytes, None) => ret (resBytes, None)
              end
          end
      end
  end.

(** The polling loop of [handler]: [inr outcome] when it breaks,
    [inl err] when the handler returns [err] from inside it. *)
Fixpoint poll (fuel : nat) (taskARN : string) (runTaskOutcome : string)
  : M (error + string) :=
  match fuel with
  | O => fun st => (OutOfFuel, st)
  | S fuel' =>
      do config <- get_taskCfg;
      do c <- deref config;
      do r <- GetTaskLastStatus
                (ECSTaskReadConfig.mk (Cluster c) taskARN);
      match r with
      | (_, Some err) => ret (inl err)
      | (taskStatus, None) =>
          if String.eqb taskStatus "RUNNING" then ret (inr "succeeded")
          else if String.eqb taskStatus "STOPPED" then ret (inr runTaskOutcome)
          else do _ <- time_Sleep (1 * time_Second);
               poll fuel' taskARN runTaskOutcome
      end
  end.

(** One iteration of [for _, record := range event.Records]:
    [Some err] when the handler returns [err], [None] when the
    iteration runs to its end. *)
Definition handle_record (fuel : nat) (record : SQSMessage) : M (option error) :=
  match json_Unmarshal w (Body record) with
  | inr err => ret (Some err)
  | inl payload =>
      do p <- deref payload;
      do _ <- SetClientToken (AuthToken p);
      do config <- get_taskCfg;
      do c <- deref config;
      do launched <- RunFargateTask c;
      match launched with
      | inr err => ret (Some err)
      | inl result =>
          do task <- index (ecs.run_Tasks result) 0;
          let taskARN := aws.ToString (types.TaskArn task) in
          do polled <- poll fuel taskARN "failed";
          match polled with
          | inl err => ret (Some err)
          | inr runTaskOutcome =>
              do ado <- get_adoCfg;
              do called <- ADOCallback
                             {| Config := ado; Payload := payload;
                                Result := runTaskOutcome |};
              match called with
              | (_, Some err) => ret (Some err)
              | (callbackResponse, None) => ret None
              end
          end
      end
  end.

Fixpoint handle_records (fuel : nat) (records : list SQSMessage) : M (option error) :=
  match records with
  | [] => ret None
  | record :: rest =>
      do r <- handle_record fuel record;
      match r with
      | Some err => ret (Some err)
      | None => handle_records fuel rest
      end
  end.

(** [handler(ctx, event)]; [fuel] bounds the number of status queries
    of each polling loop. *)
Definition handler (fuel : nat) (event : Event) : M (option error) :=
  handle_records fuel (Records event).

End WithWorld.

(** ** Vocabulary of the statements *)

(** What a describe answer reads as: the status of its first task, or an
    error. *)
Definition observe (taskARN : string) (out : ecs.DescribeTasksOutput + error)
  : string * option error :=
  match out with
  | inr err => (EmptyString, Some err)
  | inl result =>
      match ecs.Tasks result with
      | t :: _ => (aws.ToString (types.LastStatus t), None)
      | [] => (EmptyString, Some (errors_New ("failed to describe task " +:+ taskARN)))
      end
  end.

(** An answer that carries a status other than RUNNING and STOPPED. *)
Definition pending (out : ecs.DescribeTasksOutput + error) : bool :=
  match out with
  | inl result =>
      match ecs.Tasks result with
      | t :: _ =>
          negb (String.eqb (aws.ToString (types.LastStatus t)) "RUNNING")
          && negb (String.eqb (aws.ToString (types.LastStatus t)) "STOPPED")
      | [] => false
      end
  | inr _ => false
  end.

(** The calls of the polling rounds that saw the answers [outs] and went
    on: each query is followed by the one-second sleep. *)
Definition waits (q : ecs.DescribeTasksInput) (outs : list (ecs.DescribeTasksOutput + error))
  : list Effect :=
  flat_map (fun out => [DescribeTasks q out; Sleep (1 * time_Second)]) outs.

(** The fields of the task configuration that only [init] writes. *)
Definition static_fields (c : ECSTaskConfig)
  : string * string * list string * list string :=
  (Cluster c, TaskDefinition c, Subnets c, SecurityGroups c).

(** The request [ADOCallback] sends: the POST to the events URL, with the
    headers set. *)
Definition callback_request (adoConfig : ADOConfig) (payload : ADOPayload)
    (result bodyBytes : string) : http.Request :=
  set_headers
    {| http.Method := "POST";
       http.URL := ADOEventsURL payload (Instance adoConfig) (APIVersion adoConfig);
       http.ReqHeader := ∅;
       http.ReqBody := bodyBytes |}
    (callback_headers (GetAuth adoConfig (AuthToken payload))).

(** The state once [SetClientToken] has stored the token made from the
    [AuthToken] of payload [p] in the task configuration [c]. *)
Definition with_token (st : State) (c : ECSTaskConfig) (p : ADOPayload) : State :=
  {| globals :=
       {| taskCfg := Some (with_ClientToken c (GenerateClientToken (AuthToken p)));
          adoCfg := adoCfg (globals st) |};
     trace := trace st |}.

(** The panic of [s[0]] on an empty slice. *)
Definition index_out_of_range_0 : string :=
  "runtime error: index out of range [0] with length 0".

(** ** A scripted world, for running the model on concrete inputs *)

Module Scripted.

Definition dq : string := String "034"%char EmptyString.

Definition json_string (s : string) : string := dq +:+ s +:+ dq.

(** The text of a JSON object whose keys and values need no escaping. *)
Fixpoint json_members (fields : list (string * string)) : string :=
  match fields with
  | [] => EmptyString
  | [(k, v)] => json_string k +:+ ":" +:+ json_string v
  | (k, v) :: rest => json_string k +:+ ":" +:+ json_string v +:+ "," +:+ json_members rest
  end.

Definition json_object (fields : list (string * string)) : string :=
  "{" +:+ json_members fields +:+ "}".

Definition payload_fields (p : ADOPayload) : list (string * string) :=
  [ ("PlanUrl", PlanURL p); ("PlanId", PlanID p); ("ProjectId", ProjectID p);
    ("HubName", HubName p); ("JobId", JobID p); ("TimelineId", TimelineID p);
    ("TaskInstanceId", TaskInstanceID p); ("AuthToken", AuthToken p) ].

(** A stand-in for [json.Unmarshal], for the runs below only: it knows the
    texts of the given payloads and the JSON value [null], and answers any
    other body with the syntax error that [encoding/json] gives on the
    body of [bad_message]. *)
Fixpoint Unmarshal (known : list ADOPayload) (body : string) : option ADOPayload + error :=
  match known with
  | [] =>
      if String.eqb body "null" then inl None
      else inr (errors_New
                  "invalid character 'n' looking for beginning of object key string")
  | p :: rest =>
      if String.eqb body (json_object (payload_fields p)) then inl (Some p)
      else Unmarshal rest body
  end.

(** Go writes the keys of a map in sorted order. *)
Definition Marshal (m : gmap string string) : string + error :=
  inl (json_object
         (omap (fun k => pair k <$> m !! k) ["jobId"; "name"; "result"; "taskId"])).

Fixpoint count_DescribeTasks (tr : list Effect) : nat :=
  match tr with
  | [] => O
  | DescribeTasks _ _ :: rest => S (count_DescribeTasks rest)
  | _ :: rest => count_DescribeTasks rest
  end.

Definition task (arn status : string) : types.Task :=
  {| types.TaskArn := Some arn; types.LastStatus := Some status |}.

Definition described (arn status : string) : ecs.DescribeTasksOutput + error :=
  inl {| ecs.Tasks := [task arn status] |}.

(** The world that launches as [launch] says, answers the [i]-th status
    query with the [i]-th element of [statuses] (a describe failure past
    the end) and the callback with [response]. *)
Definition world (known : list ADOPayload)
    (launch : ecs.RunTaskOutput + error)
    (statuses : list (ecs.DescribeTasksOutput + error))
    (response : http.Response + error) : World :=
  {| json_Unmarshal := Unmarshal known;
     json_Marshal := Marshal;
     url_Parse := fun _ => None;
     client_RunTask := fun _ _ => launch;
     client_DescribeTasks := fun tr _ =>
       default (inr (errors_New "operation error ECS: DescribeTasks"))
               (statuses !! count_DescribeTasks tr);
     client_Do := fun _ _ => response |}.

Definition payload1 : ADOPayload :=
  {| PlanURL := "https://dev.azure.com/myorg/"; PlanID := "PLAN1";
     ProjectID := "P1"; HubName := "build"; JobID := "JOB1";
     TimelineID := "TL1"; TaskInstanceID := "TASK1"; AuthToken := "abc123" |}.

Definition arn1 : string := "arn:aws:ecs:eu-west-1:111122223333:task/agents/0a1b2c".

Definition taskCfg0 : ECSTaskConfig :=
  {| Cluster := "agents"; TaskDefinition := "ado-agent:3"; ClientToken := EmptyString;
     Subnets := ["subnet-1"; "subnet-2"]; SecurityGroups := ["sg-1"] |}.

Definition adoCfg0 : ADOConfig :=
  {| Instance := "dev.azure.com/myorg"; APIVersion := "7.1-preview.3";
     AuthUsername := "ado-callback" |}.

Definition st0 : State :=
  {| globals := {| taskCfg := Some taskCfg0; adoCfg := Some adoCfg0 |}; trace := [] |}.

Definition message (p : ADOPayload) : SQSMessage :=
  {| MessageId := "m-" +:+ JobID p; Body := json_object (payload_fields p) |}.

Definition launched1 : ecs.RunTaskOutput + error :=
  inl {| ecs.run_Tasks := [task arn1 "PROVISIONING"] |}.

Definition ok200 : http.Response + error :=
  inl {| http.StatusCode := 200; http.ReadAll := ("{}", None) |}.

(** A response whose status line arrives and whose body does not. *)
Definition cut200 : http.Response + error :=
  inl {| http.StatusCode := 200;
         http.ReadAll := (EmptyString, Some (errors_New "unexpected EOF")) |}.

Definition running1 : list (ecs.DescribeTasksOutput + error) :=
  [described arn1 "PENDING"; described arn1 "PENDING"; described arn1 "RUNNING"].

Definition callback1 : ADOCallbackConfig :=
  {| Config := Some adoCfg0; Payload := Some payload1; Result := "succeeded" |}.

(** A launch that succeeds and reports no task (its failures are in
    the part of the answer the handler does not read). *)
Definition launched_none : ecs.RunTaskOutput + error :=
  inl {| ecs.run_Tasks := [] |}.

Definition bad_message : SQSMessage :=
  {| MessageId := "m-0"; Body := "{not json" |}.

Definition rejected500 : http.Response + error :=
  inl {| http.StatusCode := 500; http.ReadAll := ("Internal Server Error", None) |}.

(** A backend on which the task never leaves the PENDING status. *)
Definition world_pending : World :=
  {| json_Unmarshal := Unmarshal [payload1];
     json_Marshal := Marshal;
     url_Parse := fun _ => None;
     client_RunTask := fun _ _ => launched1;
     client_DescribeTasks := fun _ _ => described arn1 "PENDING";
     client_Do := fun _ _ => ok200 |}.

(** The environment of a complete deployment. *)
Definition environ1 : gmap string string :=
  list_to_map
    [ ("ECS_CLUSTER", "agents"); ("ECS_TASK_DEFINITION", "ado-agent:3");
      ("SUBNET_IDS", "subnet-1,subnet-2"); ("SECURITY_GROUP_IDS", "sg-1");
      ("ADO_ORG", "myorg") ].

End Scripted.

(** ** Vocabulary of the statements on the rest of the code *)

(** The variable reads as a non-empty string. *)
Definition is_set (environ : gmap string string) (name : string) : bool :=
  negb (String.eqb (os_Getenv environ name) EmptyString).

(** [strings.Join]: the elements with the separator between them. *)
Fixpoint strings_Join (elems : list string) (sep : string) : string :=
  match elems with
  | [] => EmptyString
  | [e] => e
  | e :: rest => e +:+ sep +:+ strings_Join rest sep
  end.

(** The number of occurrences of a byte in a string. *)
Fixpoint count_byte (c : ascii) (s : string) : nat :=
  match s with
  | EmptyString => O
  | String c' rest => if Ascii.eqb c' c then S (count_byte c rest) else count_byte c rest
  end.

Definition comma : ascii := ","%char.

(** The calls of a message handled to its end, under the task
    configuration [c] and the ADO configuration [adoConfig]: the launch
    with the token of the message, the status queries of the first task of
    the answer with a one-second sleep after each pending answer, and the
    callback that reports the last status, answered with a status code in
    [200,399] and a body read to its end. *)
Definition message_run (w : World) (record : SQSMessage) (c : ECSTaskConfig)
    (adoConfig : ADOConfig) (run : list Effect) : Prop :=
  exists p result task tasks pre last outcome bodyBytes res,
    let taskARN := aws.ToString (types.TaskArn task) in
    let q := describe_input (Cluster c) taskARN in
    json_Unmarshal w (Body record) = inl (Some p)
    /\ ecs.run_Tasks result = task :: tasks
    /\ forallb pending pre = true
    /\ (outcome = "succeeded" /\ observe taskARN last = ("RUNNING", None)
        \/ outcome = "failed" /\ observe taskARN last = ("STOPPED", None))
    /\ json_Marshal w (callback_body p outcome) = inl bodyBytes
    /\ 200 <= http.StatusCode res <= 399
    /\ snd (http.ReadAll res) = None
    /\ run = RunTask (run_input (with_ClientToken c (GenerateClientToken (AuthToken p))))
                     (inl result)
             :: waits q pre
             ++ [DescribeTasks q last;
                 Do (callback_request adoConfig p outcome bodyBytes) (inl res)].

(** The position of a character in the base64 alphabet (64 when it is
    not in it): what a decoder reads a character as. *)
Fixpoint index_from (c : ascii) (alphabet : list ascii) (i : Z) : Z :=
  match alphabet with
  | [] => 64
  | x :: rest => if Ascii.eqb x c then i else index_from c rest (i + 1)
  end.

Definition std_index (c : ascii) : Z :=
  index_from c (list_ascii_of_string base64.encodeStd) 0.

(** A byte value. *)
Definition is_byte (b : Z) : Prop := 0 <= b < 256.

(** * Properties *)

(** ** The client token *)

Section ClientToken.

Lemma be32_length w : length (sha256.be32 w) = 4%nat.
Proof. reflexivity. Qed.

(** The digest is a [[32]byte], whatever the message. *)
Lemma Sum256_length msg : length (sha256.Sum256 msg) = 32%nat.
Proof.
  unfold sha256.Sum256.
  destruct (sha256.blocks _ _ _) as [[[[[[[a b] c] d] e] f] g] h].
  rewrite !length_app, !be32_length. reflexivity.
Qed.

(** Induction three bytes at a time, as the encoder consumes them. *)
Lemma list_ind3 {A} (P : list A -> Prop) :
  P [] -> (forall a, P [a]) -> (forall a b, P [a; b]) ->
  (forall a b c l, P l -> P (a :: b :: c :: l)) ->
  forall l, P l.
Proof.
  intros H0 H1 H2 H3.
  fix IH 1. intros [|a [|b [|c l]]]; [apply H0 | apply H1 | apply H2 | apply H3, IH].
Qed.

Lemma EncodeToString_length src :
  String.length (base64.EncodeToString src) = (4 * ((length src + 2) / 3))%nat.
Proof.
  induction src as [|a|a b|a b c l IH] using list_ind3; try reflexivity.
  cbn [base64.EncodeToString String.length length]. rewrite IH.
  replace (S (S (S (length l))) + 2)%nat with (1 * 3 + (length l + 2))%nat by lia.
  rewrite Nat.div_add_l by lia. lia.
Qed.

Lemma enc_is_std i : base64.is_std_char (base64.enc i) = true.
Proof.
  unfold base64.enc.
  assert (H : (Z.to_nat (Z.land i 0x3f) < 64)%nat).
  { change 0x3f with (Z.ones 6). rewrite Z.land_ones by lia.
    pose proof (Z.mod_pos_bound i (2 ^ 6)). lia. }
  revert H. generalize (Z.to_nat (Z.land i 0x3f)). intros n Hn.
  do 64 (destruct n as [|n]; [reflexivity|]). lia.
Qed.

Lemma EncodeToString_alphabet src :
  forallb base64.is_std_char (list_ascii_of_string (base64.EncodeToString src)) = true.
Proof.
  induction src as [|a|a b|a b c l IH] using list_ind3;
    cbn [base64.EncodeToString list_ascii_of_string forallb];
    rewrite ?enc_is_std, ?IH; reflexivity.
Qed.

Lemma substring_all s : substring 0 (String.length s) s = s.
Proof. induction s as [|c s IH]; [reflexivity|]. simpl. now rewrite IH. Qed.

Lemma encoded_digest_length input :
  String.length (base64.EncodeToString (sha256.Sum256 (bytes_of_string input))) = 44%nat.
Proof. rewrite EncodeToString_length, Sum256_length. reflexivity. Qed.

Lemma bytes_of_string_length s : length (bytes_of_string s) = String.length s.
Proof.
  unfold bytes_of_string. rewrite length_map.
  induction s as [|c s IH]; simpl; congruence.
Qed.

Lemma GenerateClientToken_unfold input :
  GenerateClientToken input
  = base64.EncodeToString (sha256.Sum256 (bytes_of_string input)).
Proof.
  unfold GenerateClientToken, len. rewrite encoded_digest_length. reflexivity.
Qed.

End ClientToken.

(** Known answers: the digests of the empty string and of [abc] (FIPS
    180-4), and the encoding of RFC 4648's test vector. *)
Example Sum256_empty :
  sha256.Sum256 (bytes_of_string EmptyString)
  = [ 0xe3; 0xb0; 0xc4; 0x42; 0x98; 0xfc; 0x1c; 0x14; 0x9a; 0xfb; 0xf4; 0xc8;
      0x99; 0x6f; 0xb9; 0x24; 0x27; 0xae; 0x41; 0xe4; 0x64; 0x9b; 0x93; 0x4c;
      0xa4; 0x95; 0x99; 0x1b; 0x78; 0x52; 0xb8; 0x55 ].
Proof. vm_compute. reflexivity. Qed.

Example Sum256_abc :
  sha256.Sum256 (bytes_of_string "abc")
  = [ 0xba; 0x78; 0x16; 0xbf; 0x8f; 0x01; 0xcf; 0xea; 0x41; 0x41; 0x40; 0xde;
      0x5d; 0xae; 0x22; 0x23; 0xb0; 0x03; 0x61; 0xa3; 0x96; 0x17; 0x7a; 0x9c;
      0xb4; 0x10; 0xff; 0x61; 0xf2; 0x00; 0x15; 0xad ].
Proof. vm_compute. reflexivity. Qed.

Example EncodeToString_foobar :
  base64.EncodeToString (bytes_of_string "foobar") = "Zm9vYmFy"
  /\ base64.EncodeToString (bytes_of_string "fooba") = "Zm9vYmE="
  /\ base64.EncodeToString (bytes_of_string "foob") = "Zm9vYg==".
Proof. repeat split; reflexivity. Qed.

Example GenerateClientToken_empty :
  GenerateClientToken EmptyString = "47DEQpj8HBSa+/TImW+5JCeuQeRkm5NMpJWZG3hSuFU=".
Proof. vm_compute. reflexivity. Qed.

Example GenerateClientToken_abc123 :
  GenerateClientToken "abc123" = "bKE9UspwyIPg8LsQHkJaiehiTeUdstI5JZOvaoQRgJA=".
Proof. vm_compute. reflexivity. Qed.

(** C5: for every input string, the empty one included,
    [GenerateClientToken] yields the base64 (standard alphabet) encoding of
    the SHA-256 digest of the input cut down to its first 64 characters at
    most: a string of at most 64 characters, all of the standard
    alphabet. *)
Theorem GenerateClientToken_at_most_64 (input : string) :
  let encoded := base64.EncodeToString (sha256.Sum256 (bytes_of_string input)) in
  GenerateClientToken input
  = substring 0 (Nat.min 64 (String.length encoded)) encoded
  /\ (String.length (GenerateClientToken input) <= 64)%nat
  /\ forallb base64.is_std_char (list_ascii_of_string (GenerateClientToken input)) = true.
Proof.
  intros encoded. split; [|split].
  - unfold GenerateClientToken, len. fold encoded.
    destruct (Z.ltb_spec 64 (Z.of_nat (String.length encoded))) as [Hlt|Hge].
    + f_equal. lia.
    + replace (Nat.min 64 (String.length encoded)) with (String.length encoded) by lia.
      symmetry. apply substring_all.
  - rewrite GenerateClientToken_unfold, encoded_digest_length. lia.
  - rewrite GenerateClientToken_unfold. apply EncodeToString_alphabet.
Qed.

(** C10: for every input string the digest has 32 bytes, so the token has
    exactly 44 characters; it is never empty and the test [len(encoded) >
    64] that guards the truncation is false. *)
Theorem GenerateClientToken_length_44 (input : string) :
  let hash := sha256.Sum256 (bytes_of_string input) in
  let encoded := base64.EncodeToString hash in
  length hash = 32%nat
  /\ String.length (GenerateClientToken input) = 44%nat
  /\ GenerateClientToken input <> EmptyString
  /\ (64 <? len encoded) = false
  /\ GenerateClientToken input = encoded.
Proof.
  intros hash encoded.
  assert (H44 : String.length (GenerateClientToken input) = 44%nat).
  { rewrite GenerateClientToken_unfold. apply encoded_digest_length. }
  repeat split.
  - apply Sum256_length.
  - exact H44.
  - intros Heq. rewrite Heq in H44. discriminate H44.
  - unfold len, encoded, hash. rewrite encoded_digest_length. reflexivity.
  - apply GenerateClientToken_unfold.
Qed.

(** ** Process start *)

Lemma ADOConfig_ReadFromEnv_nil environ c :
  ADOConfig_ReadFromEnv environ None <> Up c.
Proof.
  unfold ADOConfig_ReadFromEnv, startup_bind.
  destruct (ReadRequiredEnvVar environ "ADO_ORG"); discriminate.
Qed.

(** [init] never completes: it exits on a missing variable and otherwise
    panics in [adoCfg.ReadFromEnv()], called before [adoCfg] is
    allocated. *)
Lemma init_never_completes environ loadDefaultConfig g :
  init environ loadDefaultConfig <> Up g.
Proof.
  unfold init.
  destruct (ECSTaskConfig_ReadFromEnv environ new_ECSTaskConfig) as [c| |];
    cbn [startup_bind]; try discriminate.
  pose proof (ADOConfig_ReadFromEnv_nil environ) as Hnil.
  destruct (ADOConfig_ReadFromEnv environ None) as [a| |];
    cbn [startup_bind]; try discriminate.
  exfalso. exact (Hnil a eq_refl).
Qed.

(** Had the two statements been in the other order, as they are for
    [taskCfg], the configuration would have been read. *)
Example ADOConfig_ReadFromEnv_allocated :
  ADOConfig_ReadFromEnv Scripted.environ1 (Some new_ADOConfig) = Up Scripted.adoCfg0.
Proof. vm_compute. reflexivity. Qed.

Example ECSTaskConfig_ReadFromEnv_environ1 :
  ECSTaskConfig_ReadFromEnv Scripted.environ1 new_ECSTaskConfig = Up Scripted.taskCfg0.
Proof. vm_compute. reflexivity. Qed.

(** C2: with every variable set (cluster, task definition, subnets,
    security groups, organisation), [init] does not populate the ADO
    configuration: it panics on the nil [adoCfg]. *)
Theorem init_panics_on_nil_adoCfg :
  init Scripted.environ1 None = Crash nil_dereference.
Proof. vm_compute. reflexivity. Qed.

(** ** Running the computations *)

Lemma push_nil st : push st [] = st.
Proof. destruct st as [g tr]. unfold push. cbn. now rewrite app_nil_r. Qed.

Lemma push_push st es es' : push (push st es) es' = push st (es ++ es').
Proof. unfold push. cbn. now rewrite app_assoc. Qed.

Lemma globals_push st es : globals (push st es) = globals st.
Proof. reflexivity. Qed.

Lemma trace_push st es : trace (push st es) = trace st ++ es.
Proof. reflexivity. Qed.

Lemma index_0_cons {A} (a : A) l : index (a :: l) 0 = ret a.
Proof. reflexivity. Qed.

Section Running.

Variable w : World.

Lemma GetTaskLastStatus_run config st :
  let q := describe_input (ECSTaskReadConfig.Cluster config)
                          (ECSTaskReadConfig.TaskARN config) in
  let out := client_DescribeTasks w (trace st) q in
  GetTaskLastStatus w config st
  = (Val (observe (ECSTaskReadConfig.TaskARN config) out), push st [DescribeTasks q out]).
Proof.
  cbv zeta. unfold GetTaskLastStatus, bind, call_DescribeTasks, observe.
  destruct (client_DescribeTasks w (trace st) _) as [result|err]; [|reflexivity].
  destruct (ecs.Tasks result) as [|t ts]; reflexivity.
Qed.

(** One round of the polling loop. *)
Lemma poll_S fuel taskARN o st c :
  taskCfg (globals st) = Some c ->
  let q := describe_input (Cluster c) taskARN in
  let out := client_DescribeTasks w (trace st) q in
  poll w (S fuel) taskARN o st
  = match observe taskARN out with
    | (_, Some err) => (Val (inl err), push st [DescribeTasks q out])
    | (taskStatus, None) =>
        if String.eqb taskStatus "RUNNING"
        then (Val (inr "succeeded"), push st [DescribeTasks q out])
        else if String.eqb taskStatus "STOPPED"
        then (Val (inr o), push st [DescribeTasks q out])
        else poll w fuel taskARN o
               (push st [DescribeTasks q out; Sleep (1 * time_Second)])
    end.
Proof.
  intros Hc. cbv zeta. cbn [poll]. unfold bind at 1. unfold get_taskCfg.
  rewrite Hc. unfold bind at 1. cbn [deref ret]. unfold bind at 1.
  rewrite GetTaskLastStatus_run. cbn [ECSTaskReadConfig.Cluster ECSTaskReadConfig.TaskARN].
  destruct (observe taskARN _) as [taskStatus [err|]]; [reflexivity|].
  destruct (String.eqb taskStatus "RUNNING"); [reflexivity|].
  destruct (String.eqb taskStatus "STOPPED"); [reflexivity|].
  unfold bind, time_Sleep, emit. rewrite push_push. reflexivity.
Qed.

Lemma observe_pending taskARN out :
  pending out = true ->
  exists s, observe taskARN out = (s, None)
            /\ String.eqb s "RUNNING" = false /\ String.eqb s "STOPPED" = false.
Proof.
  unfold pending, observe. destruct out as [result|err]; [|discriminate].
  destruct (ecs.Tasks result) as [|t ts]; [discriminate|].
  intros H. apply andb_true_iff in H as [H1 H2].
  apply negb_true_iff in H1, H2. eauto.
Qed.

End Running.

(** ** Status queries *)

(** C6: [GetTaskLastStatus] issues one describe call; it returns an error,
    with the empty status, exactly when the call fails or the answer holds
    no task, and the last status of the first task, without error, when
    the answer holds a task. *)
Theorem GetTaskLastStatus_error_iff (w : World) (config : ECSTaskReadConfig.t) (st : State) :
  let q := describe_input (ECSTaskReadConfig.Cluster config)
                          (ECSTaskReadConfig.TaskARN config) in
  let out := client_DescribeTasks w (trace st) q in
  exists status err,
    GetTaskLastStatus w config st = (Val (status, err), push st [DescribeTasks q out])
    /\ (is_Some err <->
        (exists e, out = inr e) \/ (exists result, out = inl result /\ ecs.Tasks result = []))
    /\ (is_Some err -> status = EmptyString)
    /\ (forall e, out = inr e -> err = Some e)
    /\ (forall result t ts,
          out = inl result -> ecs.Tasks result = t :: ts ->
          status = aws.ToString (types.LastStatus t) /\ err = None).
Proof.
  intros q out. unfold GetTaskLastStatus, bind, call_DescribeTasks.
  fold q. fold out. clearbody out.
  destruct out as [result|e].
  - destruct (ecs.Tasks result) as [|t0 ts0] eqn:Htasks; cbn.
    + eexists _, _. split; [reflexivity|].
      split; [|split; [|split]].
      * split; [intros _; right; eauto | intros _; eexists; reflexivity].
      * reflexivity.
      * intros e He. discriminate He.
      * intros r t ts Hr Hts. injection Hr as <-. congruence.
    + eexists _, _. split; [reflexivity|].
      split; [|split; [|split]].
      * split.
        -- intros [x Hx]. discriminate Hx.
        -- intros [[e He]|[r [Hr Hnil]]]; [discriminate He|].
           injection Hr as <-. congruence.
      * intros [x Hx]. discriminate Hx.
      * intros e He. discriminate He.
      * intros r t ts Hr Hts. injection Hr as <-.
        rewrite Htasks in Hts. injection Hts as <- <-. split; reflexivity.
  - eexists _, _. split; [reflexivity|].
    split; [|split; [|split]].
    + split; [intros _; left; eauto | intros _; eexists; reflexivity].
    + reflexivity.
    + intros e' He'. congruence.
    + intros r t ts Hr. discriminate Hr.
Qed.

(** ** The polling loop *)

Section Polling.

Variable w : World.

Lemma waits_cons q out outs :
  waits q (out :: outs)
  = [DescribeTasks q out; Sleep (1 * time_Second)] ++ waits q outs.
Proof. reflexivity. Qed.

(** As long as the answers are pending the loop keeps querying, one
    sleep after each answer. *)
Lemma poll_pending taskARN o c pre :
  forall st fuel,
    taskCfg (globals st) = Some c ->
    let q := describe_input (Cluster c) taskARN in
    (forall i out, pre !! i = Some out ->
                   client_DescribeTasks w (trace st ++ waits q (take i pre)) q = out) ->
    forallb pending pre = true ->
    poll w (length pre + fuel) taskARN o st
    = poll w fuel taskARN o (push st (waits q pre)).
Proof.
  induction pre as [|out pre IH]; intros st fuel Hc q Hans Hpend.
  - cbn. now rewrite push_nil.
  - cbn [length Nat.add]. rewrite (poll_S w _ taskARN o st c Hc). fold q.
    pose proof (Hans O out eq_refl) as H0. cbn in H0. rewrite app_nil_r in H0.
    rewrite H0.
    cbn [forallb] in Hpend. apply andb_true_iff in Hpend as [Hout Hpre].
    destruct (observe_pending taskARN out Hout) as (s & Hobs & Hrun & Hstop).
    rewrite Hobs, Hrun, Hstop.
    rewrite IH; [|exact Hc| |exact Hpre].
    + rewrite push_push. reflexivity.
    + intros i out' Hi. rewrite trace_push, <- app_assoc.
      apply (Hans (S i) out' Hi).
Qed.

Lemma poll_out_of_fuel taskARN o c pre st :
  taskCfg (globals st) = Some c ->
  let q := describe_input (Cluster c) taskARN in
  (forall i out, pre !! i = Some out ->
                 client_DescribeTasks w (trace st ++ waits q (take i pre)) q = out) ->
  forallb pending pre = true ->
  poll w (length pre) taskARN o st = (OutOfFuel, push st (waits q pre)).
Proof.
  intros Hc q Hans Hpend.
  replace (length pre) with (length pre + 0)%nat by lia.
  rewrite (poll_pending taskARN o c pre st 0%nat Hc Hans Hpend). reflexivity.
Qed.

End Polling.

(** C4: let the backend answer the first queries of the polling loop with
    [pre], statuses other than RUNNING and STOPPED, and the next one with
    [last].  With fuel for no more than these queries the loop is still
    running, having slept one second after each answer.  With more fuel it
    stops at [last] when that is terminal: RUNNING gives succeeded, STOPPED
    gives failed, a failed or empty describe answer gives its error; and
    it has then made exactly one query per answer, with a sleep after each
    but the last. *)
Theorem poll_follows_statuses (w : World) (taskARN : string) (c : ECSTaskConfig)
    (st : State) (pre : list (ecs.DescribeTasksOutput + error)) :
  taskCfg (globals st) = Some c ->
  let q := describe_input (Cluster c) taskARN in
  (forall i out, pre !! i = Some out ->
                 client_DescribeTasks w (trace st ++ waits q (take i pre)) q = out) ->
  forallb pending pre = true ->
  let last := client_DescribeTasks w (trace st ++ waits q pre) q in
  let stopped_at_last := push st (waits q pre ++ [DescribeTasks q last]) in
  (forall fuel, (fuel <= length pre)%nat ->
     poll w fuel taskARN "failed" st = (OutOfFuel, push st (waits q (take fuel pre))))
  /\ (forall fuel, (length pre < fuel)%nat ->
      (forall result t ts,
          last = inl result -> ecs.Tasks result = t :: ts ->
          types.LastStatus t = Some "RUNNING" ->
          poll w fuel taskARN "failed" st = (Val (inr "succeeded"), stopped_at_last))
      /\ (forall result t ts,
            last = inl result -> ecs.Tasks result = t :: ts ->
            types.LastStatus t = Some "STOPPED" ->
            poll w fuel taskARN "failed" st = (Val (inr "failed"), stopped_at_last))
      /\ (forall err,
            last = inr err ->
            poll w fuel taskARN "failed" st = (Val (inl err), stopped_at_last))
      /\ (forall result,
            last = inl result -> ecs.Tasks result = [] ->
            poll w fuel taskARN "failed" st
            = (Val (inl (errors_New ("failed to describe task " +:+ taskARN))),
               stopped_at_last))).
Proof.
  intros Hc q Hans Hpend last stopped_at_last. split.
  - intros fuel Hfuel.
    assert (Hlen : length (take fuel pre) = fuel) by (rewrite length_take; lia).
    rewrite <- Hlen at 1.
    apply (poll_out_of_fuel w taskARN "failed" c (take fuel pre) st Hc).
    + intros i out Hi.
      assert (Hlt : (i < fuel)%nat).
      { apply lookup_lt_Some in Hi. lia. }
      rewrite lookup_take_lt in Hi by exact Hlt.
      rewrite take_take. replace (i `min` fuel)%nat with i by lia.
      apply Hans, Hi.
    + rewrite <- (take_drop fuel pre) in Hpend.
      rewrite forallb_app in Hpend. apply andb_true_iff in Hpend as [H _]. exact H.
  - intros fuel Hfuel.
    assert (Hstep : poll w fuel taskARN "failed" st
                    = poll w (S (fuel - length pre - 1)) taskARN "failed"
                        (push st (waits q pre))).
    { replace fuel with (length pre + S (fuel - length pre - 1))%nat at 1 by lia.
      apply (poll_pending w taskARN "failed" c pre st _ Hc Hans Hpend). }
    rewrite Hstep.
    rewrite (poll_S w _ taskARN "failed" (push st (waits q pre)) c Hc).
    rewrite trace_push. fold q. fold last. rewrite !push_push. fold stopped_at_last.
    clearbody last. clear Hstep.
    repeat split.
    + intros result t ts -> Htasks Hstatus. unfold observe. rewrite Htasks, Hstatus.
      reflexivity.
    + intros result t ts -> Htasks Hstatus. unfold observe. rewrite Htasks, Hstatus.
      reflexivity.
    + intros err ->. reflexivity.
    + intros result -> Htasks. unfold observe. rewrite Htasks. reflexivity.
Qed.

(** ** The callback *)

Lemma string_length_app (s1 s2 : string) :
  String.length (s1 +:+ s2) = (String.length s1 + String.length s2)%nat.
Proof. induction s1 as [|c s1 IH]; simpl; [reflexivity|]. f_equal. exact IH. Qed.

Lemma string_app_inv_head (s a b : string) : s +:+ a = s +:+ b -> a = b.
Proof.
  induction s as [|c s IH]; intros H; [exact H|]. apply IH.
  change (String c (s +:+ a) = String c (s +:+ b)) in H. now injection H.
Qed.

(** The base64 encoding of user name, colon and token is longer than the
    token. *)
Lemma encoded_credential_longer (user token : string) :
  (String.length token
   < String.length (base64.EncodeToString (bytes_of_string (user +:+ ":" +:+ token))))%nat.
Proof.
  rewrite EncodeToString_length, bytes_of_string_length.
  rewrite !string_length_app. cbn [String.length].
  set (n := (String.length user + (1 + String.length token) + 2)%nat).
  assert (Hn : (String.length token + 3 <= n)%nat) by (unfold n; lia).
  clearbody n.
  pose proof (Nat.div_mod_eq n 3) as Hdiv.
  pose proof (Nat.mod_upper_bound n 3 ltac:(lia)) as Hmod.
  lia.
Qed.

Lemma set_headers_lookup req headers key :
  http.ReqHeader req = ∅ ->
  http.ReqHeader (set_headers req headers) !! key
  = (fun v => [v]) <$> headers !! key.
Proof.
  intros Hempty. unfold set_headers. cbn [http.ReqHeader]. rewrite Hempty.
  rewrite <- lookup_fmap. f_equal.
  apply (map_fold_weak_ind
           (fun (r : gmap string (list string)) (m : gmap string string) =>
              r = (fun v => [v]) <$> m)).
  - now rewrite fmap_empty.
  - intros i x m r _ ->. unfold http.Set_. now rewrite fmap_insert.
Qed.

Lemma callback_request_Accept adoConfig payload result bodyBytes :
  http.ReqHeader (callback_request adoConfig payload result bodyBytes) !! "Accept"
  = Some ["application/json"].
Proof.
  unfold callback_request. rewrite set_headers_lookup by reflexivity.
  unfold callback_headers. now rewrite lookup_insert_eq.
Qed.

Lemma callback_request_Authorization adoConfig payload result bodyBytes :
  http.ReqHeader (callback_request adoConfig payload result bodyBytes) !! "Authorization"
  = Some ["Bearer " +:+ GetAuth adoConfig (AuthToken payload)].
Proof.
  unfold callback_request. rewrite set_headers_lookup by reflexivity.
  unfold callback_headers.
  rewrite lookup_insert_ne by discriminate. now rewrite lookup_insert_eq.
Qed.

Section Callback.

Variable w : World.

(** Every path of [ADOCallback] on non-nil pointers. *)
Lemma ADOCallback_run config payload adoConfig st :
  Payload config = Some payload ->
  Config config = Some adoConfig ->
  ADOCallback w config st
  = match json_Marshal w (callback_body payload (Result config)) with
    | inr err => (Val (EmptyString, Some (Wrap "failed to marshal JSON body: " err)), st)
    | inl bodyBytes =>
        match url_Parse w (ADOEventsURL payload (Instance adoConfig) (APIVersion adoConfig)) with
        | Some err =>
            (Val (EmptyString, Some (Wrap "failed to create HTTP request: " err)), st)
        | None =>
            let req := callback_request adoConfig payload (Result config) bodyBytes in
            let answer := client_Do w (trace st) req in
            (Val match answer with
                 | inr err =>
                     (EmptyString, Some (Wrap "failed to execute HTTP request: " err))
                 | inl res =>
                     match readResponse res with
                     | (_, Some err) => (EmptyString, Some err)
                     | (resBytes, None) => (resBytes, None)
                     end
                 end,
             push st [Do req answer])
        end
    end.
Proof.
  intros Hp Hc. unfold ADOCallback. rewrite Hp, Hc.
  unfold bind at 1. cbn [deref ret]. unfold bind at 1. cbn [ret].
  destruct (json_Marshal w _) as [bodyBytes|err]; [|reflexivity].
  unfold http_NewRequest.
  destruct (url_Parse w _) as [err|]; [reflexivity|].
  unfold bind, call_Do. fold (callback_request adoConfig payload (Result config) bodyBytes).
  cbv zeta.
  destruct (client_Do w (trace st) _) as [res|err]; [|reflexivity].
  destruct (readResponse res) as [data [err|]]; reflexivity.
Qed.

Lemma ADOCallback_nil config st :
  Payload config = None \/ Config config = None ->
  ADOCallback w config st = (Panic nil_dereference, st).
Proof.
  unfold ADOCallback, bind. destruct (Payload config), (Config config);
    intros [H|H]; try discriminate H; reflexivity.
Qed.

End Callback.

(** C1: every request [ADOCallback] sends is a POST that carries
    [Accept: application/json] and [Authorization: Bearer t], where [t] is
    what [GetAuth] gives for the [AuthToken] of the payload: the raw,
    unencoded token, and not the base64 encoding of user name, colon and
    token. *)
Theorem ADOCallback_request_headers (w : World) (config : ADOCallbackConfig)
    (st st' : State) (out : Outcome (string * option error))
    (new : list Effect) (req : http.Request) (answer : http.Response + error) :
  ADOCallback w config st = (out, st') ->
  trace st' = trace st ++ new ->
  In (Do req answer) new ->
  exists payload adoConfig,
    Payload config = Some payload /\ Config config = Some adoConfig
    /\ http.Method req = "POST"
    /\ http.ReqHeader req !! "Accept" = Some ["application/json"]
    /\ http.ReqHeader req !! "Authorization"
       = Some ["Bearer " +:+ GetAuth adoConfig (AuthToken payload)]
    /\ http.ReqHeader req !! "Authorization" = Some ["Bearer " +:+ AuthToken payload]
    /\ http.ReqHeader req !! "Authorization"
       <> Some ["Bearer " +:+ base64.EncodeToString
                  (bytes_of_string (AuthUsername adoConfig +:+ ":" +:+ AuthToken payload))].
Proof.
  intros Hrun Htrace Hin.
  assert (Hnone : st' = st -> False).
  { intros ->. rewrite <- (app_nil_r (trace st)) in Htrace at 1.
    apply app_inv_head in Htrace. subst new. exact Hin. }
  destruct (Payload config) as [payload|] eqn:Hp;
    [destruct (Config config) as [adoConfig|] eqn:Hc|].
  - exists payload, adoConfig. split; [reflexivity|]. split; [reflexivity|].
    rewrite (ADOCallback_run w config payload adoConfig st Hp Hc) in Hrun.
    destruct (json_Marshal w _) as [bodyBytes|err].
    + destruct (url_Parse w _) as [err|].
      * injection Hrun as _ Hst. exfalso. auto.
      * cbv zeta in Hrun. injection Hrun as _ Hst. subst st'.
        rewrite trace_push in Htrace. apply app_inv_head in Htrace. subst new.
        destruct Hin as [Heq|[]]. injection Heq as <- _.
        rewrite callback_request_Accept, callback_request_Authorization.
        repeat split. intros Hraw.
        assert (Heq : "Bearer " +:+ GetAuth adoConfig (AuthToken payload)
                      = "Bearer " +:+ base64.EncodeToString
                          (bytes_of_string
                             (AuthUsername adoConfig +:+ ":" +:+ AuthToken payload)))
          by congruence.
        apply string_app_inv_head in Heq.
        pose proof (encoded_credential_longer (AuthUsername adoConfig) (AuthToken payload))
          as Hlen.
        unfold GetAuth in Heq. rewrite <- Heq in Hlen. lia.
    + injection Hrun as _ Hst. exfalso. auto.
  - exfalso. rewrite (ADOCallback_nil w config st (or_intror Hc)) in Hrun.
    injection Hrun as _ Hst. auto.
  - exfalso. rewrite (ADOCallback_nil w config st (or_introl Hp)) in Hrun.
    injection Hrun as _ Hst. auto.
Qed.

(** A response with status 200 whose body cannot be read: the callback
    fails although the status is in range. *)
Lemma ADOCallback_fails_with_status_200 :
  let r := ADOCallback (Scripted.world [Scripted.payload1] Scripted.launched1
                          Scripted.running1 Scripted.cut200)
                       Scripted.callback1 Scripted.st0 in
  match trace (snd r) with
  | [Do _ (inl res)] => 200 <= http.StatusCode res <= 399
  | _ => False
  end
  /\ fst r = Val (EmptyString,
                  Some (Wrap "failed to read response body: " (errors_New "unexpected EOF"))).
Proof. vm_compute. split; [split; discriminate|reflexivity]. Qed.

Lemma readResponse_out_of_range res :
  http.StatusCode res < 200 \/ 399 < http.StatusCode res ->
  readResponse res
  = (EmptyString,
     Some (errors_New ("unexpected status code: " +:+ fmt_d (http.StatusCode res)))).
Proof.
  intros H. unfold readResponse.
  destruct (Z.ltb_spec (http.StatusCode res) 200), (Z.ltb_spec 399 (http.StatusCode res));
    try reflexivity; lia.
Qed.

Lemma readResponse_in_range res :
  200 <= http.StatusCode res <= 399 ->
  readResponse res
  = match http.ReadAll res with
    | (data, Some err) => (data, Some (Wrap "failed to read response body: " err))
    | (data, None) => (data, None)
    end.
Proof.
  intros H. unfold readResponse.
  destruct (Z.ltb_spec (http.StatusCode res) 200), (Z.ltb_spec 399 (http.StatusCode res));
    try reflexivity; lia.
Qed.

(** C7 (amended): on non-nil configuration and payload, [ADOCallback]
    succeeds exactly when the body is marshalled, the URL parses, the
    transport answers, the status code is in [200,399] and the response
    body is read to its end; it then returns that body.  A marshal error,
    an unparsable URL, a transport error, a status code out of range and a
    failed read of the body each give an error of their own, with five
    different messages. *)
Theorem ADOCallback_outcomes (w : World) (config : ADOCallbackConfig)
    (payload : ADOPayload) (adoConfig : ADOConfig) (st : State) :
  Payload config = Some payload ->
  Config config = Some adoConfig ->
  let body := callback_body payload (Result config) in
  let url := ADOEventsURL payload (Instance adoConfig) (APIVersion adoConfig) in
  let sent bodyBytes := callback_request adoConfig payload (Result config) bodyBytes in
  let after bodyBytes :=
    push st [Do (sent bodyBytes) (client_Do w (trace st) (sent bodyBytes))] in
  (forall err,
      json_Marshal w body = inr err ->
      ADOCallback w config st
      = (Val (EmptyString, Some (Wrap "failed to marshal JSON body: " err)), st))
  /\ (forall bodyBytes err,
        json_Marshal w body = inl bodyBytes -> url_Parse w url = Some err ->
        ADOCallback w config st
        = (Val (EmptyString, Some (Wrap "failed to create HTTP request: " err)), st))
  /\ (forall bodyBytes err,
        json_Marshal w body = inl bodyBytes -> url_Parse w url = None ->
        client_Do w (trace st) (sent bodyBytes) = inr err ->
        ADOCallback w config st
        = (Val (EmptyString, Some (Wrap "failed to execute HTTP request: " err)),
           after bodyBytes))
  /\ (forall bodyBytes res,
        json_Marshal w body = inl bodyBytes -> url_Parse w url = None ->
        client_Do w (trace st) (sent bodyBytes) = inl res ->
        http.StatusCode res < 200 \/ 399 < http.StatusCode res ->
        ADOCallback w config st
        = (Val (EmptyString,
                Some (errors_New ("unexpected status code: "
                                  +:+ fmt_d (http.StatusCode res)))),
           after bodyBytes))
  /\ (forall bodyBytes res data err,
        json_Marshal w body = inl bodyBytes -> url_Parse w url = None ->
        client_Do w (trace st) (sent bodyBytes) = inl res ->
        200 <= http.StatusCode res <= 399 ->
        http.ReadAll res = (data, Some err) ->
        ADOCallback w config st
        = (Val (EmptyString, Some (Wrap "failed to read response body: " err)),
           after bodyBytes))
  /\ (forall data st',
        ADOCallback w config st = (Val (data, None), st') <->
        exists bodyBytes res,
          json_Marshal w body = inl bodyBytes /\ url_Parse w url = None
          /\ client_Do w (trace st) (sent bodyBytes) = inl res
          /\ 200 <= http.StatusCode res <= 399
          /\ http.ReadAll res = (data, None)
          /\ st' = after bodyBytes)
  /\ (forall e1 e2 e3 e5 code,
        NoDup [ Error (Wrap "failed to marshal JSON body: " e1);
                Error (Wrap "failed to create HTTP request: " e2);
                Error (Wrap "failed to execute HTTP request: " e3);
                Error (errors_New ("unexpected status code: " +:+ fmt_d code));
                Error (Wrap "failed to read response body: " e5) ]).
Proof.
  intros Hp Hc body url sent after.
  rewrite (ADOCallback_run w config payload adoConfig st Hp Hc).
  fold body. fold url. subst sent after. cbv beta zeta.
  split; [|split; [|split; [|split; [|split; [|split]]]]].
  - intros err ->. reflexivity.
  - intros bodyBytes err -> ->. reflexivity.
  - intros bodyBytes err -> -> ->. reflexivity.
  - intros bodyBytes res -> -> -> Hcode.
    rewrite (readResponse_out_of_range res Hcode). reflexivity.
  - intros bodyBytes res data err -> -> -> Hcode Hread.
    rewrite (readResponse_in_range res Hcode), Hread. reflexivity.
  - intros data st'. split.
    + destruct (json_Marshal w body) as [bodyBytes|err]; [|discriminate].
      destruct (url_Parse w url) as [err|]; [discriminate|].
      destruct (client_Do w (trace st) _) as [res|err] eqn:Hdo; [|discriminate].
      intros Hrun. exists bodyBytes, res.
      destruct (Z.ltb_spec (http.StatusCode res) 200) as [Hlo|Hlo].
      { rewrite readResponse_out_of_range in Hrun by lia. discriminate Hrun. }
      destruct (Z.ltb_spec 399 (http.StatusCode res)) as [Hhi|Hhi].
      { rewrite readResponse_out_of_range in Hrun by lia. discriminate Hrun. }
      rewrite readResponse_in_range in Hrun by lia.
      destruct (http.ReadAll res) as [data' [err|]]; [discriminate Hrun|].
      injection Hrun as -> <-. rewrite Hdo.
      repeat split; try reflexivity; lia.
    + intros (bodyBytes & res & -> & -> & Hdo & Hcode & Hread & ->).
      rewrite Hdo, (readResponse_in_range res Hcode), Hread. reflexivity.
  - intros e1 e2 e3 e5 code. cbn [Error].
    repeat (apply NoDup_cons; split);
      [ .. | apply NoDup_nil; exact I ];
      rewrite ?elem_of_cons, ?elem_of_nil; cbn; intuition discriminate.
Qed.

(** ** One message *)

Section Handling.

Variable w : World.

Lemma poll_nil fuel taskARN o st :
  taskCfg (globals st) = None ->
  poll w (S fuel) taskARN o st = (Panic nil_dereference, st).
Proof.
  intros Hnil. cbn [poll]. unfold bind at 1. unfold get_taskCfg. rewrite Hnil.
  reflexivity.
Qed.

(** The polling loop writes no package-level variable, and panics only
    on a nil [taskCfg]. *)
Lemma poll_globals fuel taskARN o :
  forall st, globals (snd (poll w fuel taskARN o st)) = globals st.
Proof.
  induction fuel as [|fuel IH]; intros st; [reflexivity|].
  destruct (taskCfg (globals st)) as [c|] eqn:Hc.
  - rewrite (poll_S w fuel taskARN o st c Hc). cbv zeta.
    destruct (observe taskARN _) as [s [err|]]; [reflexivity|].
    destruct (String.eqb s "RUNNING"); [reflexivity|].
    destruct (String.eqb s "STOPPED"); [reflexivity|].
    rewrite IH. reflexivity.
  - rewrite (poll_nil fuel taskARN o st Hc). reflexivity.
Qed.

Lemma poll_panic fuel taskARN o :
  forall st msg, fst (poll w fuel taskARN o st) = Panic msg -> msg = nil_dereference.
Proof.
  induction fuel as [|fuel IH]; intros st msg; [discriminate|].
  destruct (taskCfg (globals st)) as [c|] eqn:Hc.
  - rewrite (poll_S w fuel taskARN o st c Hc). cbv zeta.
    destruct (observe taskARN _) as [s [err|]]; [discriminate|].
    destruct (String.eqb s "RUNNING"); [discriminate|].
    destruct (String.eqb s "STOPPED"); [discriminate|].
    apply IH.
  - rewrite (poll_nil fuel taskARN o st Hc). cbn. congruence.
Qed.

Lemma ADOCallback_globals config st :
  globals (snd (ADOCallback w config st)) = globals st.
Proof.
  destruct (Payload config) as [payload|] eqn:Hp;
    [destruct (Config config) as [adoConfig|] eqn:Hc|].
  - rewrite (ADOCallback_run w config payload adoConfig st Hp Hc).
    destruct (json_Marshal w _); [|reflexivity].
    destruct (url_Parse w _); reflexivity.
  - rewrite (ADOCallback_nil w config st (or_intror Hc)). reflexivity.
  - rewrite (ADOCallback_nil w config st (or_introl Hp)). reflexivity.
Qed.

Lemma ADOCallback_panic config st msg :
  fst (ADOCallback w config st) = Panic msg -> msg = nil_dereference.
Proof.
  destruct (Payload config) as [payload|] eqn:Hp;
    [destruct (Config config) as [adoConfig|] eqn:Hc|].
  - rewrite (ADOCallback_run w config payload adoConfig st Hp Hc).
    destruct (json_Marshal w _); [|discriminate].
    destruct (url_Parse w _); discriminate.
  - rewrite (ADOCallback_nil w config st (or_intror Hc)). cbn. congruence.
  - rewrite (ADOCallback_nil w config st (or_introl Hp)). cbn. congruence.
Qed.

Lemma handle_record_decode_error fuel record st err :
  json_Unmarshal w (Body record) = inr err ->
  handle_record w fuel record st = (Val (Some err), st).
Proof. intros H. unfold handle_record. rewrite H. reflexivity. Qed.

Lemma handle_record_null fuel record st :
  json_Unmarshal w (Body record) = inl None ->
  handle_record w fuel record st = (Panic nil_dereference, st).
Proof. intros H. unfold handle_record. rewrite H. reflexivity. Qed.

Lemma handle_record_nil_taskCfg fuel record st p :
  json_Unmarshal w (Body record) = inl (Some p) ->
  taskCfg (globals st) = None ->
  handle_record w fuel record st = (Panic nil_dereference, st).
Proof.
  intros H Hnil. unfold handle_record. rewrite H.
  unfold bind at 1. cbn [deref ret]. unfold bind at 1.
  unfold SetClientToken, bind at 1. unfold get_taskCfg. rewrite Hnil.
  reflexivity.
Qed.

(** The iteration on a message that decodes, step by step. *)
Lemma handle_record_run fuel record st p c :
  json_Unmarshal w (Body record) = inl (Some p) ->
  taskCfg (globals st) = Some c ->
  let c' := with_ClientToken c (GenerateClientToken (AuthToken p)) in
  let launched := client_RunTask w (trace st) (run_input c') in
  let st2 := push (with_token st c p) [RunTask (run_input c') launched] in
  handle_record w fuel record st
  = match launched with
    | inr err => (Val (Some err), st2)
    | inl result =>
        match ecs.run_Tasks result with
        | [] => (Panic index_out_of_range_0, st2)
        | task :: _ =>
            match poll w fuel (aws.ToString (types.TaskArn task)) "failed" st2 with
            | (Val (inl err), st3) => (Val (Some err), st3)
            | (Val (inr runTaskOutcome), st3) =>
                match ADOCallback w {| Config := adoCfg (globals st3);
                                       Payload := Some p;
                                       Result := runTaskOutcome |} st3 with
                | (Val (_, Some err), st4) => (Val (Some err), st4)
                | (Val (_, None), st4) => (Val None, st4)
                | (Panic msg, st4) => (Panic msg, st4)
                | (OutOfFuel, st4) => (OutOfFuel, st4)
                end
            | (Panic msg, st3) => (Panic msg, st3)
            | (OutOfFuel, st3) => (OutOfFuel, st3)
            end
        end
    end.
Proof.
  intros H Hc. cbv zeta. unfold handle_record. rewrite H.
  unfold bind at 1. cbn [deref ret]. unfold bind at 1.
  unfold SetClientToken, bind at 1. unfold get_taskCfg at 1. rewrite Hc.
  unfold bind at 1. cbn [deref ret]. unfold set_taskCfg_pointee.
  fold (with_token st c p).
  unfold bind at 1. unfold get_taskCfg at 1. cbn [globals taskCfg with_token].
  unfold bind at 1. cbn [deref ret].
  unfold bind at 1. unfold RunFargateTask, call_RunTask. cbn [trace with_token].
  destruct (client_RunTask w (trace st) _) as [result|err]; [|reflexivity].
  destruct (ecs.run_Tasks result) as [|task tasks]; [reflexivity|].
  rewrite index_0_cons. unfold bind at 1. cbn [ret]. unfold bind at 1.
  destruct (poll w fuel _ "failed" _) as [[[err|runTaskOutcome]|msg|] st3];
    try reflexivity.
  unfold bind at 1. unfold get_adoCfg. unfold bind at 1.
  destruct (ADOCallback w _ st3) as [[[data [err|]]|msg|] st4]; reflexivity.
Qed.

End Handling.

Section Batches.

Variable w : World.

Lemma handle_record_run_globals fuel record st p c :
  json_Unmarshal w (Body record) = inl (Some p) ->
  taskCfg (globals st) = Some c ->
  globals (snd (handle_record w fuel record st)) = globals (with_token st c p).
Proof.
  intros H Hc. rewrite (handle_record_run w fuel record st p c H Hc). cbv zeta.
  set (st2 := push (with_token st c p) _).
  destruct (client_RunTask w (trace st) _) as [result|err]; [|reflexivity].
  destruct (ecs.run_Tasks result) as [|task tasks]; [reflexivity|].
  pose proof (poll_globals w fuel (aws.ToString (types.TaskArn task)) "failed" st2)
    as Hpoll.
  destruct (poll w fuel _ "failed" st2) as [[[err|runTaskOutcome]|msg|] st3];
    cbn [snd] in Hpoll; try exact Hpoll.
  set (config := {| Config := adoCfg (globals st3); Payload := Some p;
                    Result := runTaskOutcome |}).
  pose proof (ADOCallback_globals w config st3) as Hcall.
  assert (H2 : globals st2 = globals (with_token st c p)) by reflexivity.
  destruct (ADOCallback w config st3) as [[[data [err|]]|msg|] st4];
    cbn [snd] in Hcall |- *; congruence.
Qed.

(** What one iteration does to the package-level variables. *)
Lemma handle_record_globals fuel record st :
  let st' := snd (handle_record w fuel record st) in
  globals st' = globals st
  \/ exists p c,
       json_Unmarshal w (Body record) = inl (Some p)
       /\ taskCfg (globals st) = Some c
       /\ globals st' = globals (with_token st c p).
Proof.
  cbv zeta. destruct (json_Unmarshal w (Body record)) as [[p|]|err] eqn:H.
  - destruct (taskCfg (globals st)) as [c|] eqn:Hc.
    + right. exists p, c. split; [reflexivity|]. split; [reflexivity|].
      apply (handle_record_run_globals fuel record st p c H Hc).
    + left. rewrite (handle_record_nil_taskCfg w fuel record st p H Hc). reflexivity.
  - left. rewrite (handle_record_null w fuel record st H). reflexivity.
  - left. rewrite (handle_record_decode_error w fuel record st err H). reflexivity.
Qed.

(** The panics of one iteration: a nil pointer, or the first element of
    an empty task list. *)
Lemma handle_record_panic fuel record st msg :
  fst (handle_record w fuel record st) = Panic msg ->
  msg = nil_dereference
  \/ msg = index_out_of_range_0
     /\ exists tr input result,
          client_RunTask w tr input = inl result /\ ecs.run_Tasks result = [].
Proof.
  destruct (json_Unmarshal w (Body record)) as [[p|]|err] eqn:H.
  - destruct (taskCfg (globals st)) as [c|] eqn:Hc.
    + rewrite (handle_record_run w fuel record st p c H Hc). cbv zeta.
      set (st2 := push (with_token st c p) _).
      destruct (client_RunTask w (trace st) _) as [result|err] eqn:Hrun;
        [|discriminate].
      destruct (ecs.run_Tasks result) as [|task tasks] eqn:Htasks.
      * cbn. intros Hmsg. injection Hmsg as <-. right. split; [reflexivity|].
        eauto.
      * pose proof (poll_panic w fuel (aws.ToString (types.TaskArn task)) "failed" st2)
          as Hpoll.
        destruct (poll w fuel _ "failed" st2) as [[[err|runTaskOutcome]|msg'|] st3];
          cbn [fst] in Hpoll |- *; try discriminate.
        -- set (config := {| Config := adoCfg (globals st3); Payload := Some p;
                             Result := runTaskOutcome |}).
           pose proof (ADOCallback_panic w config st3) as Hcall.
           destruct (ADOCallback w config st3) as [[[data [err|]]|msg'|] st4];
             cbn [fst] in Hcall |- *; try discriminate.
           intros Hmsg. left. injection Hmsg as <-. apply Hcall. reflexivity.
        -- intros Hmsg. left. injection Hmsg as <-. apply Hpoll. reflexivity.
    + rewrite (handle_record_nil_taskCfg w fuel record st p H Hc). cbn.
      intros Hmsg. left. congruence.
  - rewrite (handle_record_null w fuel record st H). cbn.
    intros Hmsg. left. congruence.
  - rewrite (handle_record_decode_error w fuel record st err H). discriminate.
Qed.

Lemma handle_records_cons fuel record rest st :
  handle_records w fuel (record :: rest) st
  = match handle_record w fuel record st with
    | (Val None, st1) => handle_records w fuel rest st1
    | (Val (Some err), st1) => (Val (Some err), st1)
    | (Panic msg, st1) => (Panic msg, st1)
    | (OutOfFuel, st1) => (OutOfFuel, st1)
    end.
Proof.
  cbn [handle_records]. unfold bind.
  destruct (handle_record w fuel record st) as [[[err|]|msg|] st1]; reflexivity.
Qed.

(** Messages are handled in order, and nothing is handled after the
    first one that does not run to its end. *)
Lemma handle_records_app fuel records rest :
  forall st,
    handle_records w fuel (records ++ rest) st
    = match handle_records w fuel records st with
      | (Val None, st1) => handle_records w fuel rest st1
      | (o, st1) => (o, st1)
      end.
Proof.
  induction records as [|record records IH]; intros st; [reflexivity|].
  rewrite <- app_comm_cons, !handle_records_cons.
  destruct (handle_record w fuel record st) as [[[err|]|msg|] st1];
    try reflexivity.
  apply IH.
Qed.

Lemma with_token_twice st c p st1 p1 :
  globals st1 = globals (with_token st c p) ->
  globals (with_token st1
             (with_ClientToken c (GenerateClientToken (AuthToken p))) p1)
  = globals (with_token st c p1).
Proof. intros H. unfold with_token. cbn. rewrite H. reflexivity. Qed.

(** What a batch does to the package-level variables. *)
Lemma handle_records_globals fuel records :
  forall st,
    let st' := snd (handle_records w fuel records st) in
    globals st' = globals st
    \/ exists record p c,
         In record records
         /\ json_Unmarshal w (Body record) = inl (Some p)
         /\ taskCfg (globals st) = Some c
         /\ globals st' = globals (with_token st c p).
Proof.
  induction records as [|record records IH]; intros st; cbv zeta.
  - left. reflexivity.
  - rewrite handle_records_cons.
    pose proof (handle_record_globals fuel record st) as Hone. cbv zeta in Hone.
    assert (Hstop : forall st1,
               snd (handle_record w fuel record st) = st1 ->
               globals st1 = globals st
               \/ exists record' p c,
                    In record' (record :: records)
                    /\ json_Unmarshal w (Body record') = inl (Some p)
                    /\ taskCfg (globals st) = Some c
                    /\ globals st1 = globals (with_token st c p)).
    { intros st1 <-. destruct Hone as [Hone|(p & c & Hp & Hc & Hone)];
        [left; exact Hone|].
      right. exists record, p, c. repeat split; try assumption. left. reflexivity. }
    destruct (handle_record w fuel record st) as [[[err|]|msg|] st1];
      cbn [snd] in *; try (apply Hstop; reflexivity).
    specialize (IH st1). cbv zeta in IH.
    destruct IH as [IH|(record' & p' & c' & Hin & Hp' & Hc' & IH)].
    + rewrite IH. apply Hstop. reflexivity.
    + right. destruct Hone as [Hone|(p & c & Hp & Hc & Hone)].
      * exists record', p', c'. rewrite <- Hone.
        repeat split; try assumption; [right; exact Hin|].
        rewrite IH. unfold with_token. cbn. rewrite Hone. reflexivity.
      * exists record', p', c. rewrite Hone in Hc'. cbn in Hc'.
        injection Hc' as <-.
        repeat split; try assumption; [right; exact Hin|].
        rewrite IH. apply (with_token_twice st c p st1 p' Hone).
Qed.

Lemma handle_records_panic fuel records :
  forall st msg,
    fst (handle_records w fuel records st) = Panic msg ->
    msg = nil_dereference
    \/ msg = index_out_of_range_0
       /\ exists tr input result,
            client_RunTask w tr input = inl result /\ ecs.run_Tasks result = [].
Proof.
  induction records as [|record records IH]; intros st msg; [discriminate|].
  rewrite handle_records_cons.
  pose proof (handle_record_panic fuel record st) as Hone.
  destruct (handle_record w fuel record st) as [[[err|]|msg'|] st1];
    cbn [fst] in *; try discriminate.
  - apply IH.
  - intros Hmsg. apply Hone. injection Hmsg as <-. reflexivity.
Qed.

End Batches.

(** ** The handler *)

(** Handling one message that decodes rewrites the [ClientToken] of the
    process-wide task configuration. *)
Lemma handler_writes_ClientToken :
  let r := handler (Scripted.world [Scripted.payload1] Scripted.launched1
                      Scripted.running1 Scripted.ok200)
                   5 {| Records := [Scripted.message Scripted.payload1] |} Scripted.st0 in
  fst r = Val None
  /\ ClientToken <$> taskCfg (globals Scripted.st0) = Some EmptyString
  /\ ClientToken <$> taskCfg (globals (snd r))
     = Some "bKE9UspwyIPg8LsQHkJaiehiTeUdstI5JZOvaoQRgJA="
  /\ globals (snd r) <> globals Scripted.st0.
Proof.
  vm_compute. repeat split. intros H. discriminate H.
Qed.

(** The token a reached message leaves in the task configuration. *)
Lemma handle_records_last_token (w : World) (fuel : nat)
    (before : list SQSMessage) (record : SQSMessage) (st st1 : State)
    (p : ADOPayload) (c : ECSTaskConfig) :
  handle_records w fuel before st = (Val None, st1) ->
  json_Unmarshal w (Body record) = inl (Some p) ->
  taskCfg (globals st) = Some c ->
  taskCfg (globals (snd (handle_records w fuel (before ++ [record]) st)))
  = Some (with_ClientToken c (GenerateClientToken (AuthToken p))).
Proof.
  intros Hbefore Hp Hc.
  rewrite handle_records_app, Hbefore, handle_records_cons.
  assert (Hc1 : exists t, taskCfg (globals st1) = Some (with_ClientToken c t)).
  { pose proof (handle_records_globals w fuel before st) as Hglobals.
    cbv zeta in Hglobals. rewrite Hbefore in Hglobals. cbn [snd] in Hglobals.
    destruct Hglobals as [->|(record0 & p0 & c0 & _ & _ & Hc0 & ->)].
    - exists (ClientToken c). rewrite Hc. destruct c; reflexivity.
    - rewrite Hc in Hc0. injection Hc0 as <-. eexists. reflexivity. }
  destruct Hc1 as [t Hc1].
  pose proof (handle_record_run_globals w fuel record st1 p _ Hp Hc1) as Hset.
  destruct (handle_record w fuel record st1) as [[[err|]|msg|] st2];
    cbn [snd handle_records ret] in Hset |- *; rewrite Hset; reflexivity.
Qed.

(** C3 (amended): handling a batch never writes the ADO configuration nor
    the cluster, task definition, subnets and security groups of the task
    configuration.  The [ClientToken] of the task configuration is the one
    field it writes.  Every message that the handler reaches (those before
    it ran to their end without error) and whose body decodes to a payload
    makes it store the token generated from the [AuthToken] of that
    payload, whatever then becomes of the launch, the polling and the
    callback; so when that message is the last of the batch, or does not
    run to its end without error, this is the token the handler leaves.
    Afterwards the task configuration is as before, or as before with the
    token of a message of the batch. *)
Theorem handler_keeps_static_configuration (w : World) (fuel : nat) (event : Event)
    (st : State) :
  let st' := snd (handler w fuel event st) in
  adoCfg (globals st') = adoCfg (globals st)
  /\ static_fields <$> taskCfg (globals st') = static_fields <$> taskCfg (globals st)
  /\ (taskCfg (globals st') = taskCfg (globals st)
      \/ exists record p c,
           In record (Records event)
           /\ json_Unmarshal w (Body record) = inl (Some p)
           /\ taskCfg (globals st) = Some c
           /\ taskCfg (globals st')
              = Some (with_ClientToken c (GenerateClientToken (AuthToken p))))
  /\ (forall before record after st1 p c,
        Records event = before ++ record :: after ->
        handler w fuel {| Records := before |} st = (Val None, st1) ->
        json_Unmarshal w (Body record) = inl (Some p) ->
        taskCfg (globals st) = Some c ->
        let reached := handler w fuel {| Records := before ++ [record] |} st in
        taskCfg (globals (snd reached))
        = Some (with_ClientToken c (GenerateClientToken (AuthToken p)))
        /\ (after = [] \/ fst reached <> Val None ->
            taskCfg (globals st')
            = Some (with_ClientToken c (GenerateClientToken (AuthToken p))))).
Proof.
  cbv zeta. unfold handler. cbn [Records].
  split; [|split; [|split]].
  - destruct (handle_records_globals w fuel (Records event) st)
      as [Hsame|(record & p & c & Hin & Hp & Hc & Hset)]; cbv zeta in *.
    + now rewrite Hsame.
    + rewrite Hset. reflexivity.
  - destruct (handle_records_globals w fuel (Records event) st)
      as [Hsame|(record & p & c & Hin & Hp & Hc & Hset)]; cbv zeta in *.
    + now rewrite Hsame.
    + rewrite Hset. cbn [globals with_token taskCfg]. rewrite Hc. reflexivity.
  - destruct (handle_records_globals w fuel (Records event) st)
      as [Hsame|(record & p & c & Hin & Hp & Hc & Hset)]; cbv zeta in *.
    + left. now rewrite Hsame.
    + right. exists record, p, c. rewrite Hset. repeat split; assumption.
  - intros before record after st1 p c Hrecords Hbefore Hp Hc.
    pose proof (handle_records_last_token w fuel before record st st1 p c Hbefore Hp Hc)
      as Hreached.
    split; [exact Hreached|].
    intros Hlast. rewrite Hrecords.
    change (before ++ record :: after) with (before ++ [record] ++ after).
    rewrite app_assoc, (handle_records_app w fuel (before ++ [record]) after).
    destruct (handle_records w fuel (before ++ [record]) st) as [[[err|]|msg|] st2];
      cbn [fst snd] in Hreached, Hlast |- *; try exact Hreached.
    destruct Hlast as [->|Hne]; [exact Hreached|congruence].
Qed.

(** C8: the messages of a batch are handled in the order received, the
    handling of a batch being that of its first messages followed, only
    when these ran to their end without error, by that of the others.
    The handler returns the error of the first step that fails (decode,
    launch, poll, callback) whatever messages follow, in the state that
    step left; on a body that does not decode this is the state before the
    message: no call has been made for it. *)
Theorem handler_stops_at_first_failure (w : World) (fuel : nat) :
  (forall records rest st,
      handler w fuel {| Records := records ++ rest |} st
      = match handler w fuel {| Records := records |} st with
        | (Val None, st1) => handler w fuel {| Records := rest |} st1
        | (o, st1) => (o, st1)
        end)
  /\ (forall record rest st err,
        json_Unmarshal w (Body record) = inr err ->
        handler w fuel {| Records := record :: rest |} st = (Val (Some err), st))
  /\ (forall record rest st p c,
        json_Unmarshal w (Body record) = inl (Some p) ->
        taskCfg (globals st) = Some c ->
        let c' := with_ClientToken c (GenerateClientToken (AuthToken p)) in
        let launched := client_RunTask w (trace st) (run_input c') in
        let st2 := push (with_token st c p) [RunTask (run_input c') launched] in
        (forall err,
            launched = inr err ->
            handler w fuel {| Records := record :: rest |} st = (Val (Some err), st2))
        /\ (forall result task tasks,
              launched = inl result -> ecs.run_Tasks result = task :: tasks ->
              let polled := poll w fuel (aws.ToString (types.TaskArn task)) "failed" st2 in
              (forall err,
                  fst polled = Val (inl err) ->
                  handler w fuel {| Records := record :: rest |} st
                  = (Val (Some err), snd polled))
              /\ (forall runTaskOutcome data err,
                    fst polled = Val (inr runTaskOutcome) ->
                    let called :=
                      ADOCallback w {| Config := adoCfg (globals (snd polled));
                                       Payload := Some p;
                                       Result := runTaskOutcome |} (snd polled) in
                    fst called = Val (data, Some err) ->
                    handler w fuel {| Records := record :: rest |} st
                    = (Val (Some err), snd called)))).
Proof.
  unfold handler. cbn [Records]. split; [|split].
  - intros records rest st. apply handle_records_app.
  - intros record rest st err H.
    rewrite handle_records_cons, (handle_record_decode_error w fuel record st err H).
    reflexivity.
  - intros record rest st p c H Hc. cbv zeta.
    rewrite handle_records_cons, (handle_record_run w fuel record st p c H Hc).
    cbv zeta. split.
    + intros err ->. reflexivity.
    + intros result task tasks -> ->.
      destruct (poll w fuel _ "failed" _) as [o st3]. cbn [fst snd]. split.
      * intros err ->. reflexivity.
      * intros runTaskOutcome data err ->.
        destruct (ADOCallback w _ st3) as [o4 st4]. cbn [fst snd].
        intros ->. reflexivity.
Qed.

(** C9: after a launch that returns no error the handler indexes the
    first task of the answer.  When the answer holds no task this is a
    panic, index out of range, raised right after the launch call; and
    when no successful launch answer of the world is empty, the handler
    never raises it. *)
Theorem handler_index_out_of_range (w : World) :
  (forall fuel record rest st p c result,
      json_Unmarshal w (Body record) = inl (Some p) ->
      taskCfg (globals st) = Some c ->
      let c' := with_ClientToken c (GenerateClientToken (AuthToken p)) in
      client_RunTask w (trace st) (run_input c') = inl result ->
      ecs.run_Tasks result = [] ->
      handler w fuel {| Records := record :: rest |} st
      = (Panic index_out_of_range_0,
         push (with_token st c p) [RunTask (run_input c') (inl result)]))
  /\ ((forall tr input result,
          client_RunTask w tr input = inl result -> ecs.run_Tasks result <> []) ->
      forall fuel event st,
        fst (handler w fuel event st) <> Panic index_out_of_range_0).
Proof.
  split.
  - intros fuel record rest st p c result H Hc c' Hrun Hnone.
    unfold handler. cbn [Records].
    rewrite handle_records_cons, (handle_record_run w fuel record st p c H Hc).
    fold c'. cbv zeta. rewrite Hrun, Hnone. reflexivity.
  - intros Hsome fuel event st Hpanic. unfold handler in Hpanic.
    destruct (handle_records_panic w fuel (Records event) st _ Hpanic)
      as [Hmsg|[_ (tr & input & result & Hrun & Hnone)]].
    + discriminate Hmsg.
    + exact (Hsome tr input result Hrun Hnone).
Qed.

(** ** The statements at work on the scripted world *)

Lemma ADOCallback_request_headers_witness :
  http.ReqHeader (callback_request Scripted.adoCfg0 Scripted.payload1 "succeeded" "{}")
    !! "Accept" = Some ["application/json"]
  /\ http.ReqHeader (callback_request Scripted.adoCfg0 Scripted.payload1 "succeeded" "{}")
       !! "Authorization" = Some ["Bearer abc123"].
Proof.
  set (w := {| json_Unmarshal := Scripted.Unmarshal [];
               json_Marshal := fun _ => inl "{}";
               url_Parse := fun _ => None;
               client_RunTask := fun _ _ => Scripted.launched1;
               client_DescribeTasks := fun _ _ => Scripted.described Scripted.arn1 "RUNNING";
               client_Do := fun _ _ => Scripted.ok200 |}).
  destruct (ADOCallback_request_headers w Scripted.callback1 Scripted.st0
              (snd (ADOCallback w Scripted.callback1 Scripted.st0))
              (fst (ADOCallback w Scripted.callback1 Scripted.st0))
              (trace (snd (ADOCallback w Scripted.callback1 Scripted.st0)))
              (callback_request Scripted.adoCfg0 Scripted.payload1 "succeeded" "{}")
              Scripted.ok200)
    as (payload & adoConfig & Hp & _ & _ & Haccept & _ & Hraw & _).
  - reflexivity.
  - reflexivity.
  - left. reflexivity.
  - injection Hp as <-. split; [exact Haccept|exact Hraw].
Defined.

Lemma poll_follows_statuses_witness :
  let w := Scripted.world [Scripted.payload1] Scripted.launched1
             Scripted.running1 Scripted.ok200 in
  let q := describe_input "agents" Scripted.arn1 in
  poll w 5 Scripted.arn1 "failed" Scripted.st0
  = (Val (inr "succeeded"),
     push Scripted.st0
       (waits q [Scripted.described Scripted.arn1 "PENDING";
                 Scripted.described Scripted.arn1 "PENDING"]
        ++ [DescribeTasks q (Scripted.described Scripted.arn1 "RUNNING")])).
Proof.
  intros w q.
  destruct (poll_follows_statuses w Scripted.arn1 Scripted.taskCfg0 Scripted.st0
              [Scripted.described Scripted.arn1 "PENDING";
               Scripted.described Scripted.arn1 "PENDING"])
    as [_ Hstop].
  - reflexivity.
  - intros [|[|i]] out Hi; cbn in Hi; try discriminate Hi;
      injection Hi as <-; reflexivity.
  - reflexivity.
  - destruct (Hstop 5%nat) as [Hrun _]; [cbn; lia|].
    apply (Hrun {| ecs.Tasks := [Scripted.task Scripted.arn1 "RUNNING"] |}
                (Scripted.task Scripted.arn1 "RUNNING") []); reflexivity.
Defined.

Lemma GetTaskLastStatus_error_iff_witness :
  let w := Scripted.world [Scripted.payload1] Scripted.launched1
             Scripted.running1 Scripted.ok200 in
  fst (GetTaskLastStatus w (ECSTaskReadConfig.mk "agents" Scripted.arn1) Scripted.st0)
  = Val ("PENDING", None).
Proof.
  intros w.
  destruct (GetTaskLastStatus_error_iff w (ECSTaskReadConfig.mk "agents" Scripted.arn1)
              Scripted.st0)
    as (status & err & Hrun & _ & _ & _ & Hok).
  destruct (Hok {| ecs.Tasks := [Scripted.task Scripted.arn1 "PENDING"] |}
                (Scripted.task Scripted.arn1 "PENDING") [] eq_refl eq_refl) as [-> ->].
  rewrite Hrun. reflexivity.
Defined.

Lemma ADOCallback_outcomes_witness :
  let w := Scripted.world [Scripted.payload1] Scripted.launched1
             Scripted.running1 Scripted.rejected500 in
  fst (ADOCallback w Scripted.callback1 Scripted.st0)
  = Val (EmptyString, Some (errors_New "unexpected status code: 500")).
Proof.
  intros w.
  destruct (ADOCallback_outcomes w Scripted.callback1 Scripted.payload1 Scripted.adoCfg0
              Scripted.st0 eq_refl eq_refl)
    as (_ & _ & _ & Hcode & _).
  rewrite (Hcode
             match json_Marshal w (callback_body Scripted.payload1 "succeeded") with
             | inl bodyBytes => bodyBytes
             | inr _ => EmptyString
             end
             {| http.StatusCode := 500;
                http.ReadAll := ("Internal Server Error", None) |});
    [reflexivity|reflexivity|reflexivity|reflexivity|].
  right. cbn. lia.
Defined.

Lemma handler_stops_at_first_failure_witness :
  let w := Scripted.world [Scripted.payload1] Scripted.launched1
             Scripted.running1 Scripted.ok200 in
  handler w 5 {| Records := [Scripted.bad_message; Scripted.message Scripted.payload1] |}
          Scripted.st0
  = (Val (Some (errors_New
                  "invalid character 'n' looking for beginning of object key string")),
     Scripted.st0).
Proof.
  intros w. apply (proj1 (proj2 (handler_stops_at_first_failure w 5%nat))).
  vm_compute. reflexivity.
Defined.

Lemma handler_index_out_of_range_witness :
  let w := Scripted.world [Scripted.payload1] Scripted.launched_none
             Scripted.running1 Scripted.ok200 in
  fst (handler w 5 {| Records := [Scripted.message Scripted.payload1] |} Scripted.st0)
  = Panic index_out_of_range_0.
Proof.
  intros w.
  rewrite (proj1 (handler_index_out_of_range w) 5%nat
             (Scripted.message Scripted.payload1) [] Scripted.st0
             Scripted.payload1 Scripted.taskCfg0 {| ecs.run_Tasks := [] |});
    [reflexivity|vm_compute; reflexivity|reflexivity|reflexivity|reflexivity].
Defined.

(** * Further properties *)

(** ** Reading the environment *)

Lemma strings_Split_not_nil s sep : strings_Split s sep <> [].
Proof.
  destruct s as [|c s]; cbn; [discriminate|].
  destruct (Ascii.eqb c sep); [discriminate|].
  destruct (strings_Split s sep); discriminate.
Qed.

Lemma strings_Join_cons e e' rest sep :
  strings_Join (e :: e' :: rest) sep = e +:+ sep +:+ strings_Join (e' :: rest) sep.
Proof. reflexivity. Qed.

Lemma strings_Join_Split s sep :
  strings_Join (strings_Split s sep) (String sep EmptyString) = s.
Proof.
  induction s as [|c s IH]; [reflexivity|]. cbn [strings_Split].
  pose proof (strings_Split_not_nil s sep) as Hne.
  destruct (strings_Split s sep) as [|piece pieces]; [congruence|].
  destruct (Ascii.eqb_spec c sep) as [->|Hc].
  - rewrite strings_Join_cons, IH. reflexivity.
  - destruct pieces as [|piece' pieces].
    + cbn in IH |- *. now rewrite IH.
    + rewrite strings_Join_cons. rewrite strings_Join_cons in IH.
      rewrite <- IH. reflexivity.
Qed.

Lemma strings_Split_length s sep :
  length (strings_Split s sep) = S (count_byte sep s).
Proof.
  induction s as [|c s IH]; [reflexivity|]. cbn [strings_Split count_byte].
  destruct (Ascii.eqb c sep).
  - cbn [length]. now rewrite IH.
  - destruct (strings_Split s sep) as [|piece pieces]; [discriminate IH|exact IH].
Qed.

Lemma strings_Split_pieces s sep :
  Forall (fun piece => count_byte sep piece = O) (strings_Split s sep).
Proof.
  induction s as [|c s IH]; cbn [strings_Split].
  - repeat constructor.
  - destruct (Ascii.eqb c sep) eqn:Hc.
    + constructor; [reflexivity|exact IH].
    + destruct (strings_Split s sep) as [|piece pieces].
      * repeat constructor. cbn. now rewrite Hc.
      * inversion IH as [|? ? Hpiece Hpieces]; subst.
        constructor; [|exact Hpieces]. cbn. now rewrite Hc.
Qed.

Lemma ReadRequiredEnvVar_is_set environ name :
  ReadRequiredEnvVar environ name
  = if is_set environ name then Up (os_Getenv environ name) else Exit 1.
Proof.
  unfold ReadRequiredEnvVar, is_set.
  destruct (String.eqb (os_Getenv environ name) EmptyString); reflexivity.
Qed.

(** X1: [ECSTaskConfig.ReadFromEnv] completes exactly when the four
    variables ECS_CLUSTER, ECS_TASK_DEFINITION, SUBNET_IDS and
    SECURITY_GROUP_IDS all read as non-empty strings; it then stores the
    two names and the two lists split at the commas and leaves the client
    token as it was.  When one of them is unset or empty the process exits
    with status 1. *)
Theorem ECSTaskConfig_ReadFromEnv_outcome (environ : gmap string string)
    (config : ECSTaskConfig) :
  ECSTaskConfig_ReadFromEnv environ config
  = if forallb (is_set environ)
         ["ECS_CLUSTER"; "ECS_TASK_DEFINITION"; "SUBNET_IDS"; "SECURITY_GROUP_IDS"]
    then Up {| Cluster := os_Getenv environ "ECS_CLUSTER";
               TaskDefinition := os_Getenv environ "ECS_TASK_DEFINITION";
               ClientToken := ClientToken config;
               Subnets := strings_Split (os_Getenv environ "SUBNET_IDS") comma;
               SecurityGroups :=
                 strings_Split (os_Getenv environ "SECURITY_GROUP_IDS") comma |}
    else Exit 1.
Proof.
  unfold ECSTaskConfig_ReadFromEnv. rewrite !ReadRequiredEnvVar_is_set.
  cbn [forallb].
  destruct (is_set environ "ECS_CLUSTER"); [|reflexivity].
  destruct (is_set environ "ECS_TASK_DEFINITION"); [|reflexivity].
  destruct (is_set environ "SUBNET_IDS"); [|reflexivity].
  destruct (is_set environ "SECURITY_GROUP_IDS"); reflexivity.
Qed.

(** X2: the subnet and security group lists that
    [ECSTaskConfig.ReadFromEnv] stores are never empty; joined with commas
    they give back the text of the variable; no element contains a comma;
    and there is one element more than there are commas in the text (so
    two commas in a row, or one at either end, give an empty element). *)
Theorem ECSTaskConfig_ReadFromEnv_lists (environ : gmap string string)
    (config c : ECSTaskConfig) :
  ECSTaskConfig_ReadFromEnv environ config = Up c ->
  (Subnets c <> []
   /\ strings_Join (Subnets c) "," = os_Getenv environ "SUBNET_IDS"
   /\ Forall (fun id => count_byte comma id = O) (Subnets c)
   /\ length (Subnets c) = S (count_byte comma (os_Getenv environ "SUBNET_IDS")))
  /\ (SecurityGroups c <> []
      /\ strings_Join (SecurityGroups c) "," = os_Getenv environ "SECURITY_GROUP_IDS"
      /\ Forall (fun id => count_byte comma id = O) (SecurityGroups c)
      /\ length (SecurityGroups c)
         = S (count_byte comma (os_Getenv environ "SECURITY_GROUP_IDS"))).
Proof.
  rewrite ECSTaskConfig_ReadFromEnv_outcome.
  destruct (forallb _ _); [|discriminate].
  intros Hup. injection Hup as <-. cbn [Subnets SecurityGroups].
  repeat split;
    auto using strings_Split_not_nil, strings_Split_length, strings_Split_pieces;
    apply (strings_Join_Split _ comma).
Qed.

Lemma ECSTaskConfig_ReadFromEnv_lists_witness :
  Subnets Scripted.taskCfg0 = ["subnet-1"; "subnet-2"]
  /\ strings_Join (Subnets Scripted.taskCfg0) "," = "subnet-1,subnet-2".
Proof.
  destruct (ECSTaskConfig_ReadFromEnv_lists Scripted.environ1 new_ECSTaskConfig
              Scripted.taskCfg0) as [(_ & Hjoin & _) _].
  - vm_compute. reflexivity.
  - split; [reflexivity|]. rewrite Hjoin. vm_compute. reflexivity.
Defined.

Lemma ReadEnvVarWithDefault_not_empty environ name defaultVal :
  defaultVal <> EmptyString ->
  ReadEnvVarWithDefault environ name defaultVal <> EmptyString.
Proof.
  intros Hd. unfold ReadEnvVarWithDefault.
  destruct (String.eqb_spec (os_Getenv environ name) EmptyString); assumption.
Qed.

(** X3: [ADOConfig.ReadFromEnv] exits with status 1 when ADO_ORG is unset
    or empty, whatever the receiver.  Otherwise it panics on a nil
    receiver, and on an allocated one it overwrites every field: the
    instance is the domain (dev.azure.com unless ADO_DOMAIN is set), a
    slash and the organisation, and neither the API version nor the user
    name is left empty, an unset or empty variable giving the default. *)
Theorem ADOConfig_ReadFromEnv_outcome (environ : gmap string string) :
  (is_set environ "ADO_ORG" = false ->
   forall config, ADOConfig_ReadFromEnv environ config = Exit 1)
  /\ (is_set environ "ADO_ORG" = true ->
      ADOConfig_ReadFromEnv environ None = Crash nil_dereference
      /\ forall config0, exists c,
           ADOConfig_ReadFromEnv environ (Some config0) = Up c
           /\ Instance c
              = (if is_set environ "ADO_DOMAIN" then os_Getenv environ "ADO_DOMAIN"
                 else "dev.azure.com") +:+ "/" +:+ os_Getenv environ "ADO_ORG"
           /\ APIVersion c
              = (if is_set environ "ADO_API_VERSION"
                 then os_Getenv environ "ADO_API_VERSION" else "7.1-preview.3")
           /\ AuthUsername c
              = (if is_set environ "ADO_AUTH_USERNAME"
                 then os_Getenv environ "ADO_AUTH_USERNAME" else "ado-callback")
           /\ APIVersion c <> EmptyString /\ AuthUsername c <> EmptyString).
Proof.
  unfold ADOConfig_ReadFromEnv. rewrite ReadRequiredEnvVar_is_set. split.
  - intros ->. reflexivity.
  - intros ->. cbn [startup_bind]. split; [reflexivity|].
    intros config0. eexists. split; [reflexivity|]. cbn [Instance APIVersion AuthUsername].
    unfold ReadEnvVarWithDefault, is_set.
    repeat split.
    + destruct (String.eqb (os_Getenv environ "ADO_DOMAIN") EmptyString); reflexivity.
    + destruct (String.eqb (os_Getenv environ "ADO_API_VERSION") EmptyString); reflexivity.
    + destruct (String.eqb (os_Getenv environ "ADO_AUTH_USERNAME") EmptyString); reflexivity.
    + destruct (String.eqb_spec (os_Getenv environ "ADO_API_VERSION") EmptyString);
        [discriminate|assumption].
    + destruct (String.eqb_spec (os_Getenv environ "ADO_AUTH_USERNAME") EmptyString);
        [discriminate|assumption].
Qed.

Lemma ADOConfig_ReadFromEnv_outcome_witness :
  ADOConfig_ReadFromEnv Scripted.environ1 None = Crash nil_dereference.
Proof.
  apply (proj2 (ADOConfig_ReadFromEnv_outcome Scripted.environ1)).
  vm_compute. reflexivity.
Defined.

(** X4: [init] never completes.  It exits with status 1 when one of
    ECS_CLUSTER, ECS_TASK_DEFINITION, SUBNET_IDS, SECURITY_GROUP_IDS and
    ADO_ORG is unset or empty, and panics on the nil [adoCfg] otherwise;
    the AWS configuration is not loaded in either case. *)
Theorem init_outcome (environ : gmap string string) (loadDefaultConfig : option error) :
  init environ loadDefaultConfig
  = if forallb (is_set environ)
         ["ECS_CLUSTER"; "ECS_TASK_DEFINITION"; "SUBNET_IDS"; "SECURITY_GROUP_IDS";
          "ADO_ORG"]
    then Crash nil_dereference
    else Exit 1.
Proof.
  unfold init. rewrite ECSTaskConfig_ReadFromEnv_outcome.
  unfold ADOConfig_ReadFromEnv. rewrite ReadRequiredEnvVar_is_set.
  cbn [forallb].
  destruct (is_set environ "ECS_CLUSTER"); [|reflexivity].
  destruct (is_set environ "ECS_TASK_DEFINITION"); [|reflexivity].
  destruct (is_set environ "SUBNET_IDS"); [|reflexivity].
  destruct (is_set environ "SECURITY_GROUP_IDS"); [|reflexivity].
  cbn [andb startup_bind].
  destruct (is_set environ "ADO_ORG"); reflexivity.
Qed.

(** ** The callback request and its effects *)

Lemma set_headers_map req headers :
  http.ReqHeader req = ∅ ->
  http.ReqHeader (set_headers req headers) = (fun v => [v]) <$> headers.
Proof.
  intros Hempty. apply map_eq. intros key.
  rewrite (set_headers_lookup req headers key Hempty), lookup_fmap. reflexivity.
Qed.

(** What [ADOCallback] has sent when a call shows in its trace. *)
Lemma ADOCallback_sent (w : World) (config : ADOCallbackConfig) (st st' : State)
    (out : Outcome (string * option error)) (new : list Effect)
    (req : http.Request) (answer : http.Response + error) :
  ADOCallback w config st = (out, st') ->
  trace st' = trace st ++ new ->
  In (Do req answer) new ->
  exists payload adoConfig bodyBytes,
    Payload config = Some payload /\ Config config = Some adoConfig
    /\ json_Marshal w (callback_body payload (Result config)) = inl bodyBytes
    /\ req = callback_request adoConfig payload (Result config) bodyBytes
    /\ answer = client_Do w (trace st) req
    /\ new = [Do req answer].
Proof.
  intros Hrun Htrace Hin.
  assert (Hnone : st' = st -> False).
  { intros ->. rewrite <- (app_nil_r (trace st)) in Htrace at 1.
    apply app_inv_head in Htrace. subst new. exact Hin. }
  destruct (Payload config) as [payload|] eqn:Hp;
    [destruct (Config config) as [adoConfig|] eqn:Hc|].
  - rewrite (ADOCallback_run w config payload adoConfig st Hp Hc) in Hrun.
    destruct (json_Marshal w _) as [bodyBytes|err] eqn:Hbody.
    + destruct (url_Parse w _) as [err|].
      * injection Hrun as _ Hst. exfalso. auto.
      * cbv zeta in Hrun. injection Hrun as _ Hst. subst st'.
        rewrite trace_push in Htrace. apply app_inv_head in Htrace. subst new.
        destruct Hin as [Heq|[]]. injection Heq as <- <-.
        exists payload, adoConfig, bodyBytes.
        repeat split; try reflexivity. exact Hbody.
    + injection Hrun as _ Hst. exfalso. auto.
  - exfalso. rewrite (ADOCallback_nil w config st (or_intror Hc)) in Hrun.
    injection Hrun as _ Hst. auto.
  - exfalso. rewrite (ADOCallback_nil w config st (or_introl Hp)) in Hrun.
    injection Hrun as _ Hst. auto.
Qed.

(** X5: every request [ADOCallback] sends goes to the events URL built
    from the configured instance and API version and the project, hub and
    plan of the payload; it carries the two headers Accept and
    Authorization and no other; and its body is the marshalled map of
    exactly four keys: name (TaskCompleted), jobId, taskId and result. *)
Theorem ADOCallback_request_target (w : World) (config : ADOCallbackConfig)
    (st st' : State) (out : Outcome (string * option error))
    (new : list Effect) (req : http.Request) (answer : http.Response + error) :
  ADOCallback w config st = (out, st') ->
  trace st' = trace st ++ new ->
  In (Do req answer) new ->
  exists payload adoConfig (body : gmap string string),
    Payload config = Some payload /\ Config config = Some adoConfig
    /\ http.URL req
       = "https://" +:+ Instance adoConfig +:+ "/" +:+ ProjectID payload
         +:+ "/_apis/distributedtask/hubs/" +:+ HubName payload
         +:+ "/plans/" +:+ PlanID payload
         +:+ "/events?api-version=" +:+ APIVersion adoConfig
    /\ dom (http.ReqHeader req) = ({["Accept"; "Authorization"]} : gset string)
    /\ json_Marshal w body = inl (http.ReqBody req)
    /\ dom body = ({["name"; "jobId"; "taskId"; "result"]} : gset string)
    /\ body !! "name" = Some "TaskCompleted"
    /\ body !! "jobId" = Some (JobID payload)
    /\ body !! "taskId" = Some (TaskInstanceID payload)
    /\ body !! "result" = Some (Result config).
Proof.
  intros Hrun Htrace Hin.
  destruct (ADOCallback_sent w config st st' out new req answer Hrun Htrace Hin)
    as (payload & adoConfig & bodyBytes & Hp & Hc & Hbody & -> & _ & _).
  exists payload, adoConfig, (callback_body payload (Result config)).
  split; [exact Hp|]. split; [exact Hc|]. split; [reflexivity|].
  split.
  { unfold callback_request. rewrite set_headers_map by reflexivity.
    rewrite dom_fmap_L. unfold callback_headers.
    rewrite !dom_insert_L, dom_empty_L. set_solver. }
  split; [exact Hbody|].
  unfold callback_body. split.
  { rewrite !dom_insert_L, dom_empty_L. set_solver. }
  repeat split.
Qed.

Lemma ADOCallback_request_target_witness :
  http.URL (callback_request Scripted.adoCfg0 Scripted.payload1 "succeeded" "{}")
  = "https://dev.azure.com/myorg/P1/_apis/distributedtask/hubs/build/plans/PLAN1/events?api-version=7.1-preview.3".
Proof.
  set (w := {| json_Unmarshal := Scripted.Unmarshal [];
               json_Marshal := fun _ => inl "{}";
               url_Parse := fun _ => None;
               client_RunTask := fun _ _ => Scripted.launched1;
               client_DescribeTasks := fun _ _ => Scripted.described Scripted.arn1 "RUNNING";
               client_Do := fun _ _ => Scripted.ok200 |}).
  destruct (ADOCallback_request_target w Scripted.callback1 Scripted.st0
              (snd (ADOCallback w Scripted.callback1 Scripted.st0))
              (fst (ADOCallback w Scripted.callback1 Scripted.st0))
              (trace (snd (ADOCallback w Scripted.callback1 Scripted.st0)))
              (callback_request Scripted.adoCfg0 Scripted.payload1 "succeeded" "{}")
              Scripted.ok200)
    as (payload & adoConfig & body & Hp & Hc & Hurl & _).
  - reflexivity.
  - reflexivity.
  - left. reflexivity.
  - injection Hp as <-. injection Hc as <-. rewrite Hurl. reflexivity.
Defined.

(** X6: [ADOCallback] writes no package-level variable and makes at most
    one call, the HTTP request; it makes none when it panics on a nil
    pointer, when the body cannot be marshalled and when the request
    cannot be created. *)
Theorem ADOCallback_effects (w : World) (config : ADOCallbackConfig) (st : State) :
  let r := ADOCallback w config st in
  globals (snd r) = globals st
  /\ (trace (snd r) = trace st
      \/ exists req, trace (snd r) = trace st ++ [Do req (client_Do w (trace st) req)])
  /\ (forall msg, fst r = Panic msg -> snd r = st)
  /\ (forall payload err,
        Payload config = Some payload ->
        json_Marshal w (callback_body payload (Result config)) = inr err ->
        snd r = st)
  /\ (forall payload adoConfig err,
        Payload config = Some payload -> Config config = Some adoConfig ->
        url_Parse w (ADOEventsURL payload (Instance adoConfig) (APIVersion adoConfig))
        = Some err ->
        snd r = st).
Proof.
  cbv zeta.
  destruct (Payload config) as [payload|] eqn:Hp;
    [destruct (Config config) as [adoConfig|] eqn:Hc|].
  - rewrite (ADOCallback_run w config payload adoConfig st Hp Hc).
    destruct (json_Marshal w _) as [bodyBytes|err] eqn:Hbody.
    + destruct (url_Parse w _) as [err|] eqn:Hurl; cbv zeta; cbn [fst snd].
      * repeat split; auto.
      * repeat split.
        -- right. eexists. reflexivity.
        -- intros msg Hmsg. discriminate Hmsg.
        -- intros payload' err Hp'. injection Hp' as <-. congruence.
        -- intros payload' adoConfig' err Hp' Hc'.
           injection Hp' as <-. injection Hc' as <-. congruence.
    + cbn [fst snd]. repeat split; auto.
  - rewrite (ADOCallback_nil w config st (or_intror Hc)). cbn [fst snd].
    repeat split; auto.
  - rewrite (ADOCallback_nil w config st (or_introl Hp)). cbn [fst snd].
    repeat split; auto.
Qed.

Lemma string_app_assoc (a b c : string) : (a +:+ b) +:+ c = a +:+ (b +:+ c).
Proof.
  induction a as [|x a IH]; [reflexivity|]. exact (f_equal (String x) IH).
Qed.

(** X7: with the configuration that [ADOConfig.ReadFromEnv] reads into an
    allocated receiver, the events URL of a payload is
    https://DOMAIN/ORG/PROJECT/_apis/distributedtask/hubs/HUB/plans/PLAN/events?api-version=VERSION,
    with dev.azure.com and 7.1-preview.3 when ADO_DOMAIN and
    ADO_API_VERSION are unset or empty. *)
Theorem ADOEventsURL_from_environment (environ : gmap string string)
    (config0 c : ADOConfig) (payload : ADOPayload) :
  ADOConfig_ReadFromEnv environ (Some config0) = Up c ->
  ADOEventsURL payload (Instance c) (APIVersion c)
  = "https://"
    +:+ (if is_set environ "ADO_DOMAIN" then os_Getenv environ "ADO_DOMAIN"
         else "dev.azure.com")
    +:+ "/" +:+ os_Getenv environ "ADO_ORG"
    +:+ "/" +:+ ProjectID payload
    +:+ "/_apis/distributedtask/hubs/" +:+ HubName payload
    +:+ "/plans/" +:+ PlanID payload
    +:+ "/events?api-version="
    +:+ (if is_set environ "ADO_API_VERSION" then os_Getenv environ "ADO_API_VERSION"
         else "7.1-preview.3").
Proof.
  unfold ADOConfig_ReadFromEnv. rewrite ReadRequiredEnvVar_is_set.
  destruct (is_set environ "ADO_ORG"); [|discriminate].
  cbn [startup_bind]. intros Hup. injection Hup as <-.
  unfold ADOEventsURL. cbn [Instance APIVersion].
  unfold ReadEnvVarWithDefault, is_set.
  destruct (String.eqb (os_Getenv environ "ADO_DOMAIN") EmptyString),
           (String.eqb (os_Getenv environ "ADO_API_VERSION") EmptyString);
    cbn [negb]; rewrite !string_app_assoc; reflexivity.
Qed.

Lemma ADOEventsURL_from_environment_witness :
  ADOEventsURL Scripted.payload1 (Instance Scripted.adoCfg0) (APIVersion Scripted.adoCfg0)
  = "https://dev.azure.com/myorg/P1/_apis/distributedtask/hubs/build/plans/PLAN1/events?api-version=7.1-preview.3".
Proof.
  rewrite (ADOEventsURL_from_environment Scripted.environ1 new_ADOConfig
             Scripted.adoCfg0 Scripted.payload1).
  - vm_compute. reflexivity.
  - vm_compute. reflexivity.
Defined.

(** ** Every run of the polling loop *)

Lemma pending_observe taskARN out :
  match observe taskARN out with
  | (_, Some _) => pending out = false
  | (s, None) =>
      pending out = negb (String.eqb s "RUNNING") && negb (String.eqb s "STOPPED")
  end.
Proof.
  unfold observe, pending. destruct out as [result|err]; [|reflexivity].
  destruct (ecs.Tasks result); reflexivity.
Qed.

(** The runs of the loop, whatever outcome [o] it starts from. *)
Lemma poll_shape (w : World) (taskARN o : string) (c : ECSTaskConfig) (fuel : nat) :
  forall st,
    taskCfg (globals st) = Some c ->
    let q := describe_input (Cluster c) taskARN in
    exists pre,
      forallb pending pre = true
      /\ (forall i out, pre !! i = Some out ->
                        client_DescribeTasks w (trace st ++ waits q (take i pre)) q = out)
      /\ match poll w fuel taskARN o st with
         | (OutOfFuel, st') => length pre = fuel /\ st' = push st (waits q pre)
         | (Val r, st') =>
             (length pre < fuel)%nat
             /\ exists last,
                  last = client_DescribeTasks w (trace st ++ waits q pre) q
                  /\ pending last = false
                  /\ st' = push st (waits q pre ++ [DescribeTasks q last])
                  /\ (r = inr "succeeded" /\ observe taskARN last = ("RUNNING", None)
                      \/ r = inr o /\ observe taskARN last = ("STOPPED", None)
                      \/ exists s err,
                           r = inl err /\ observe taskARN last = (s, Some err))
         | (Panic _, _) => False
         end.
Proof.
  induction fuel as [|fuel IH]; intros st Hc q.
  - exists []. cbn. rewrite push_nil. repeat split. intros i out Hi. discriminate Hi.
  - rewrite (poll_S w fuel taskARN o st c Hc). fold q. cbv zeta.
    set (out := client_DescribeTasks w (trace st) q).
    pose proof (pending_observe taskARN out) as Hpend.
    assert (Hlast : out = client_DescribeTasks w (trace st ++ waits q []) q).
    { cbn. now rewrite app_nil_r. }
    destruct (observe taskARN out) as [s [err|]] eqn:Hobs.
    + exists []. split; [reflexivity|]. split; [intros i x Hi; discriminate Hi|].
      split; [cbn; lia|]. exists out. repeat split; try assumption.
      right. right. eauto.
    + destruct (String.eqb_spec s "RUNNING") as [->|Hrun].
      * exists []. split; [reflexivity|]. split; [intros i x Hi; discriminate Hi|].
        split; [cbn; lia|]. exists out. repeat split; try assumption. left. auto.
      * destruct (String.eqb_spec s "STOPPED") as [->|Hstop].
        -- exists []. split; [reflexivity|]. split; [intros i x Hi; discriminate Hi|].
           split; [cbn; lia|]. exists out. repeat split; try assumption.
           right. left. auto.
        -- cbn [negb andb] in Hpend.
           set (st1 := push st [DescribeTasks q out; Sleep (1 * time_Second)]).
           destruct (IH st1 Hc) as (pre & Hpre & Hans & Hrest). fold q in Hans, Hrest.
           exists (out :: pre). split; [cbn [forallb]; now rewrite Hpend, Hpre|].
           assert (Htr : forall es,
                      trace st1 ++ es
                      = trace st ++ [DescribeTasks q out; Sleep (1 * time_Second)] ++ es).
           { intros es. unfold st1. rewrite trace_push, <- app_assoc. reflexivity. }
           split.
           { intros [|i] x Hi.
             - cbn in Hi. injection Hi as <-. exact (eq_sym Hlast).
             - cbn in Hi. cbn [take]. rewrite waits_cons, <- Htr. apply Hans, Hi. }
           destruct (poll w fuel taskARN o st1) as [[r|msg|] st'].
           ++ destruct Hrest as (Hlen & last & Hl & Hp & Hst & Hr).
              split; [cbn [length]; lia|]. exists last.
              rewrite waits_cons, <- Htr. split; [exact Hl|]. split; [exact Hp|].
              split; [|exact Hr].
              rewrite Hst. unfold st1. rewrite push_push, <- app_assoc. reflexivity.
           ++ exact Hrest.
           ++ destruct Hrest as (Hlen & Hst). split; [cbn [length]; lia|].
              rewrite Hst. unfold st1. rewrite push_push, waits_cons. reflexivity.
Qed.

(** X8: every run of the polling loop started with a task configuration.
    The loop never panics.  It has queried the backend for the task of
    its argument, in the cluster of the configuration, and slept one
    second after each answer with a status other than RUNNING and STOPPED.
    When it stops, the last answer is not such a status: it is RUNNING and
    the outcome is succeeded, or STOPPED and the outcome is failed, or an
    error that the handler returns.  When the fuel is spent, every answer
    so far was such a status. *)
Theorem poll_runs (w : World) (taskARN : string) (c : ECSTaskConfig) (fuel : nat)
    (st : State) :
  taskCfg (globals st) = Some c ->
  let q := describe_input (Cluster c) taskARN in
  exists pre,
    forallb pending pre = true
    /\ (forall i out, pre !! i = Some out ->
                      client_DescribeTasks w (trace st ++ waits q (take i pre)) q = out)
    /\ match poll w fuel taskARN "failed" st with
       | (OutOfFuel, st') => length pre = fuel /\ st' = push st (waits q pre)
       | (Val r, st') =>
           (length pre < fuel)%nat
           /\ exists last,
                last = client_DescribeTasks w (trace st ++ waits q pre) q
                /\ pending last = false
                /\ st' = push st (waits q pre ++ [DescribeTasks q last])
                /\ (r = inr "succeeded" /\ observe taskARN last = ("RUNNING", None)
                    \/ r = inr "failed" /\ observe taskARN last = ("STOPPED", None)
                    \/ exists s err,
                         r = inl err /\ observe taskARN last = (s, Some err))
       | (Panic _, _) => False
       end.
Proof. intros Hc. exact (poll_shape w taskARN "failed" c fuel st Hc). Qed.

Lemma poll_runs_witness :
  let w := Scripted.world [Scripted.payload1] Scripted.launched1
             Scripted.running1 Scripted.ok200 in
  fst (poll w 5 Scripted.arn1 "failed" Scripted.st0) <> Panic nil_dereference.
Proof.
  intros w Hpanic.
  destruct (poll_runs w Scripted.arn1 Scripted.taskCfg0 5 Scripted.st0 eq_refl)
    as (pre & _ & _ & Hrun).
  destruct (poll w 5 Scripted.arn1 "failed" Scripted.st0) as [[r|msg|] st'];
    [discriminate Hpanic|exact Hrun|discriminate Hpanic].
Defined.

(** X9: the loop has no bound of its own.  Against a backend that answers
    every query for the task with a status other than RUNNING and STOPPED
    (a nil status among them), it is still running after any number of
    rounds, having then slept that many seconds. *)
Theorem poll_unbounded (w : World) (taskARN : string) (c : ECSTaskConfig) :
  let q := describe_input (Cluster c) taskARN in
  (forall tr, pending (client_DescribeTasks w tr q) = true) ->
  forall fuel st,
    taskCfg (globals st) = Some c ->
    exists pre,
      length pre = fuel
      /\ poll w fuel taskARN "failed" st = (OutOfFuel, push st (waits q pre))
      /\ fold_right Z.add 0
           (omap (fun e => match e with Sleep d => Some d | _ => None end) (waits q pre))
         = Z.of_nat fuel * time_Second.
Proof.
  intros q Hall fuel. induction fuel as [|fuel IH]; intros st Hc.
  - exists []. cbn. rewrite push_nil. repeat split.
  - rewrite (poll_S w fuel taskARN "failed" st c Hc). fold q. cbv zeta.
    destruct (observe_pending taskARN _ (Hall (trace st))) as (s & Hobs & Hrun & Hstop).
    rewrite Hobs, Hrun, Hstop.
    set (st1 := push st _).
    destruct (IH st1 Hc) as (pre & Hlen & Hpoll & Hsum).
    exists (client_DescribeTasks w (trace st) q :: pre).
    split; [cbn [length]; now rewrite Hlen|]. split.
    + rewrite Hpoll. unfold st1. rewrite push_push. reflexivity.
    + rewrite waits_cons. cbn [app omap list_omap fold_right].
      change (omap _ (waits q pre)) with
        (omap (fun e => match e with Sleep d => Some d | _ => None end) (waits q pre)).
      rewrite Hsum. lia.
Qed.

Lemma poll_unbounded_witness :
  fst (poll Scripted.world_pending 3 Scripted.arn1 "failed" Scripted.st0) = OutOfFuel.
Proof.
  destruct (poll_unbounded Scripted.world_pending Scripted.arn1 Scripted.taskCfg0
              (fun _ => eq_refl) 3%nat Scripted.st0 eq_refl)
    as (pre & _ & Hpoll & _).
  rewrite Hpoll. reflexivity.
Defined.

(** ** Every run of the handler *)

Lemma readResponse_ok res data :
  readResponse res = (data, None) ->
  200 <= http.StatusCode res <= 399 /\ http.ReadAll res = (data, None).
Proof.
  intros Hread.
  destruct (Z.ltb_spec (http.StatusCode res) 200) as [Hlo|Hlo].
  { rewrite readResponse_out_of_range in Hread by lia. discriminate Hread. }
  destruct (Z.ltb_spec 399 (http.StatusCode res)) as [Hhi|Hhi].
  { rewrite readResponse_out_of_range in Hread by lia. discriminate Hread. }
  rewrite readResponse_in_range in Hread by lia.
  destruct (http.ReadAll res) as [data' [err|]]; [discriminate Hread|].
  injection Hread as ->. split; [lia|reflexivity].
Qed.

(** The successful runs of [ADOCallback]. *)
Lemma ADOCallback_success (w : World) (config : ADOCallbackConfig) (st st' : State)
    (data : string) :
  ADOCallback w config st = (Val (data, None), st') ->
  exists payload adoConfig bodyBytes res,
    Payload config = Some payload /\ Config config = Some adoConfig
    /\ json_Marshal w (callback_body payload (Result config)) = inl bodyBytes
    /\ 200 <= http.StatusCode res <= 399
    /\ http.ReadAll res = (data, None)
    /\ st' = push st [Do (callback_request adoConfig payload (Result config) bodyBytes)
                         (inl res)].
Proof.
  intros Hrun.
  destruct (Payload config) as [payload|] eqn:Hp;
    [destruct (Config config) as [adoConfig|] eqn:Hc|].
  - rewrite (ADOCallback_run w config payload adoConfig st Hp Hc) in Hrun.
    destruct (json_Marshal w _) as [bodyBytes|err] eqn:Hbody; [|discriminate Hrun].
    destruct (url_Parse w _) as [err|]; [discriminate Hrun|].
    cbv zeta in Hrun.
    destruct (client_Do w (trace st) _) as [res|err]; [|discriminate Hrun].
    destruct (readResponse res) as [data' [err|]] eqn:Hread; [discriminate Hrun|].
    injection Hrun as -> <-.
    destruct (readResponse_ok res data Hread) as [Hcode Hall].
    exists payload, adoConfig, bodyBytes, res. repeat split; try assumption; lia.
  - rewrite (ADOCallback_nil w config st (or_intror Hc)) in Hrun. discriminate Hrun.
  - rewrite (ADOCallback_nil w config st (or_introl Hp)) in Hrun. discriminate Hrun.
Qed.

(** The calls [ADOCallback] makes are HTTP requests. *)
Lemma ADOCallback_delta (w : World) (config : ADOCallbackConfig) (st : State) :
  exists new,
    snd (ADOCallback w config st) = push st new
    /\ forall e, In e new -> exists req answer, e = Do req answer.
Proof.
  destruct (Payload config) as [payload|] eqn:Hp;
    [destruct (Config config) as [adoConfig|] eqn:Hc|].
  - rewrite (ADOCallback_run w config payload adoConfig st Hp Hc).
    destruct (json_Marshal w _) as [bodyBytes|err];
      [destruct (url_Parse w _) as [err|]|].
    + exists []. rewrite push_nil. split; [reflexivity|intros e []].
    + cbv zeta. eexists. split; [reflexivity|].
      intros e [<-|[]]. eauto.
    + exists []. rewrite push_nil. split; [reflexivity|intros e []].
  - rewrite (ADOCallback_nil w config st (or_intror Hc)).
    exists []. rewrite push_nil. split; [reflexivity|intros e []].
  - rewrite (ADOCallback_nil w config st (or_introl Hp)).
    exists []. rewrite push_nil. split; [reflexivity|intros e []].
Qed.

Lemma In_waits q pre e :
  In e (waits q pre) -> (exists out, e = DescribeTasks q out) \/ e = Sleep (1 * time_Second).
Proof.
  induction pre as [|out pre IH]; [intros []|].
  rewrite waits_cons. intros [<-|[<-|Hin]]; eauto.
Qed.

(** A message handled to its end. *)
Lemma handle_record_success (w : World) (fuel : nat) (record : SQSMessage)
    (st st' : State) (c : ECSTaskConfig) (adoConfig : ADOConfig) :
  taskCfg (globals st) = Some c ->
  adoCfg (globals st) = Some adoConfig ->
  handle_record w fuel record st = (Val None, st') ->
  exists p run,
    json_Unmarshal w (Body record) = inl (Some p)
    /\ message_run w record c adoConfig run
    /\ st' = push (with_token st c p) run.
Proof.
  intros Hc Hado Hrun.
  destruct (json_Unmarshal w (Body record)) as [[p|]|err] eqn:H.
  2:{ rewrite (handle_record_null w fuel record st H) in Hrun. discriminate Hrun. }
  2:{ rewrite (handle_record_decode_error w fuel record st err H) in Hrun.
      discriminate Hrun. }
  rewrite (handle_record_run w fuel record st p c H Hc) in Hrun. cbv zeta in Hrun.
  set (c' := with_ClientToken c (GenerateClientToken (AuthToken p))) in *.
  destruct (client_RunTask w (trace st) (run_input c')) as [result|err];
    [|discriminate Hrun].
  destruct (ecs.run_Tasks result) as [|task tasks] eqn:Htasks; [discriminate Hrun|].
  set (taskARN := aws.ToString (types.TaskArn task)) in *.
  set (st2 := push (with_token st c p) [RunTask (run_input c') (inl result)]) in *.
  destruct (poll_shape w taskARN "failed" c' fuel st2 eq_refl)
    as (pre & Hpre & _ & Hpoll).
  destruct (poll w fuel taskARN "failed" st2) as [[[err|outcome]|msg|] st3];
    try discriminate Hrun.
  destruct Hpoll as (_ & last & _ & _ & -> & Hlast).
  assert (Hout : outcome = "succeeded" /\ observe taskARN last = ("RUNNING", None)
                 \/ outcome = "failed" /\ observe taskARN last = ("STOPPED", None)).
  { destruct Hlast as [[Hr Ho]|[[Hr Ho]|(s & err & Hr & _)]];
      [left|right|discriminate Hr]; injection Hr as <-; auto. }
  clear Hlast.
  match type of Hrun with
  | context [ADOCallback w ?cfg ?s] =>
      destruct (ADOCallback w cfg s) as [[[data [err|]]|msg|] st4] eqn:Hcall;
        try discriminate Hrun
  end.
  injection Hrun as <-.
  destruct (ADOCallback_success w _ _ _ _ Hcall)
    as (payload & adoConfig' & bodyBytes & res & Hp' & Hc' & Hbody & Hcode & Hall & ->).
  cbn [Payload Config Result] in Hp', Hc', Hbody.
  injection Hp' as <-.
  change (adoCfg (globals st) = Some adoConfig') in Hc'.
  rewrite Hado in Hc'. injection Hc' as <-.
  exists p. eexists. split; [reflexivity|]. split.
  - exists p, result, task, tasks, pre, last, outcome, bodyBytes, res. cbv zeta.
    fold taskARN. repeat split; try assumption; try lia.
    now rewrite Hall.
  - unfold st2. rewrite !push_push. f_equal. cbn [app Result].
    rewrite <- app_assoc. reflexivity.
Qed.

(** X10: a batch that the handler handles to its end, returning nil.  The
    calls it made are, message after message in the order of the batch,
    those of one message handled to its end: one launch with the static
    configuration and the token of the message, the status queries with a
    one-second sleep after each pending answer, and one callback that
    reports succeeded after RUNNING and failed after STOPPED and was
    answered with a status code in [200,399]. *)
Theorem handler_success_trace (w : World) (fuel : nat) (event : Event) :
  forall (st st' : State) (c : ECSTaskConfig) (adoConfig : ADOConfig),
    taskCfg (globals st) = Some c ->
    adoCfg (globals st) = Some adoConfig ->
    handler w fuel event st = (Val None, st') ->
    exists runs,
      Forall2 (fun record run => message_run w record c adoConfig run)
              (Records event) runs
      /\ trace st' = trace st ++ concat runs
      /\ adoCfg (globals st') = Some adoConfig
      /\ static_fields <$> taskCfg (globals st') = Some (static_fields c).
Proof.
  unfold handler. induction (Records event) as [|record records IH];
    intros st st' c adoConfig Hc Hado Hrun.
  - injection Hrun as <-. exists []. cbn. rewrite app_nil_r, Hc, Hado.
    repeat split. constructor.
  - rewrite handle_records_cons in Hrun.
    destruct (handle_record w fuel record st) as [[[err|]|msg|] st1] eqn:Hone;
      try discriminate Hrun.
    destruct (handle_record_success w fuel record st st1 c adoConfig Hc Hado Hone)
      as (p & run & Hp & Hmsg & ->).
    destruct (IH (push (with_token st c p) run) st'
                (with_ClientToken c (GenerateClientToken (AuthToken p)))
                adoConfig eq_refl Hado Hrun)
      as (runs & Hruns & Htrace & Hado' & Hstatic).
    exists (run :: runs). split; [constructor; [exact Hmsg|exact Hruns]|].
    split; [|split; assumption].
    rewrite Htrace, trace_push. cbn [concat with_token trace].
    now rewrite app_assoc.
Qed.

Lemma handler_success_trace_witness :
  let w := Scripted.world [Scripted.payload1] Scripted.launched1
             Scripted.running1 Scripted.ok200 in
  let r := handler w 5 {| Records := [Scripted.message Scripted.payload1] |} Scripted.st0 in
  exists runs,
    trace (snd r) = concat runs
    /\ Forall2 (fun record run => message_run w record Scripted.taskCfg0 Scripted.adoCfg0 run)
               [Scripted.message Scripted.payload1] runs.
Proof.
  intros w r.
  destruct (handler_success_trace w 5 {| Records := [Scripted.message Scripted.payload1] |}
              Scripted.st0 (snd r) Scripted.taskCfg0 Scripted.adoCfg0 eq_refl eq_refl)
    as (runs & Hruns & Htrace & _).
  - vm_compute. reflexivity.
  - exists runs. split; [exact Htrace|exact Hruns].
Defined.

(** The calls of the polling loop are status queries and sleeps. *)
Lemma poll_delta (w : World) (taskARN o : string) (c : ECSTaskConfig) (fuel : nat)
    (st : State) :
  taskCfg (globals st) = Some c ->
  exists new,
    snd (poll w fuel taskARN o st) = push st new
    /\ forall input out, ~ In (RunTask input out) new.
Proof.
  intros Hc.
  destruct (poll_shape w taskARN o c fuel st Hc) as (pre & _ & _ & Hpoll).
  assert (Hwaits : forall input out,
             ~ In (RunTask input out) (waits (describe_input (Cluster c) taskARN) pre)).
  { intros input out Hin. apply In_waits in Hin as [[x Hx]|Hx]; discriminate. }
  destruct (poll w fuel taskARN o st) as [[r|msg|] st']; cbn [snd].
  - destruct Hpoll as (_ & last & _ & _ & -> & _). eexists. split; [reflexivity|].
    intros input out Hin. apply in_app_or in Hin as [Hin|[Hin|[]]];
      [exact (Hwaits _ _ Hin)|discriminate Hin].
  - destruct Hpoll.
  - destruct Hpoll as [_ ->]. eexists. split; [reflexivity|exact Hwaits].
Qed.

(** The launches of one iteration. *)
Lemma handle_record_delta (w : World) (fuel : nat) (record : SQSMessage) (st : State) :
  exists new,
    trace (snd (handle_record w fuel record st)) = trace st ++ new
    /\ forall input out,
         In (RunTask input out) new ->
         exists p c,
           json_Unmarshal w (Body record) = inl (Some p)
           /\ taskCfg (globals st) = Some c
           /\ input = run_input (with_ClientToken c (GenerateClientToken (AuthToken p))).
Proof.
  assert (Hnil : forall st1, st1 = st ->
             exists new : list Effect,
               trace st1 = trace st ++ new
               /\ forall input out,
                    In (RunTask input out) new ->
                    exists p c,
                      json_Unmarshal w (Body record) = inl (Some p)
                      /\ taskCfg (globals st) = Some c
                      /\ input = run_input
                                   (with_ClientToken c (GenerateClientToken (AuthToken p)))).
  { intros st1 ->. exists []. rewrite app_nil_r. split; [reflexivity|intros ? ? []]. }
  destruct (json_Unmarshal w (Body record)) as [[p|]|err] eqn:H.
  2:{ rewrite (handle_record_null w fuel record st H). apply Hnil. reflexivity. }
  2:{ rewrite (handle_record_decode_error w fuel record st err H).
      apply Hnil. reflexivity. }
  destruct (taskCfg (globals st)) as [c|] eqn:Hc.
  2:{ rewrite (handle_record_nil_taskCfg w fuel record st p H Hc).
      apply Hnil. reflexivity. }
  clear Hnil.
  rewrite (handle_record_run w fuel record st p c H Hc). cbv zeta.
  set (c' := with_ClientToken c (GenerateClientToken (AuthToken p))).
  set (launched := client_RunTask w (trace st) (run_input c')).
  set (st2 := push (with_token st c p) [RunTask (run_input c') launched]).
  assert (Hfrom2 : forall st' rest,
             st' = push st2 rest ->
             (forall input out, ~ In (RunTask input out) rest) ->
             exists new,
               trace st' = trace st ++ new
               /\ forall input out,
                    In (RunTask input out) new ->
                    exists p0 c0,
                      (inl (Some p) : option ADOPayload + error) = inl (Some p0)
                      /\ Some c = Some c0
                      /\ input = run_input
                                   (with_ClientToken c0 (GenerateClientToken (AuthToken p0)))).
  { intros st' rest -> Hrest. exists (RunTask (run_input c') launched :: rest).
    split.
    - unfold st2. rewrite push_push. reflexivity.
    - intros input out [Heq|Hin]; [|destruct (Hrest _ _ Hin)].
      injection Heq as <- _. exists p, c. repeat split. }
  destruct launched as [result|err].
  2:{ apply (Hfrom2 _ []); [now rewrite push_nil|intros ? ? []]. }
  destruct (ecs.run_Tasks result) as [|task tasks].
  { apply (Hfrom2 _ []); [now rewrite push_nil|intros ? ? []]. }
  destruct (poll_delta w (aws.ToString (types.TaskArn task)) "failed" c' fuel st2 eq_refl)
    as (new3 & Hst3 & Hnew3).
  destruct (poll w fuel _ "failed" st2) as [[[err|outcome]|msg|] st3];
    cbn [snd] in Hst3; subst st3; try (apply (Hfrom2 _ new3); [reflexivity|exact Hnew3]).
  match goal with
  | |- context [ADOCallback w ?cfg ?s] =>
      destruct (ADOCallback_delta w cfg s) as (new4 & Hst4 & Hnew4);
        destruct (ADOCallback w cfg s) as [[[data [err|]]|msg|] st4]
  end;
    cbn [snd] in Hst4; subst st4; rewrite push_push;
    (apply (Hfrom2 _ (new3 ++ new4)); [reflexivity|]);
    intros input out Hin; apply in_app_or in Hin as [Hin|Hin];
    try exact (Hnew3 _ _ Hin);
    destruct (Hnew4 _ Hin) as (req & answer & Heq); discriminate Heq.
Qed.

(** The trace only grows. *)
Lemma handle_record_delta_rest (w : World) (fuel : nat) (records : list SQSMessage) :
  forall st, exists new, trace (snd (handle_records w fuel records st)) = trace st ++ new.
Proof.
  induction records as [|record records IH]; intros st.
  - exists []. cbn. now rewrite app_nil_r.
  - rewrite handle_records_cons.
    destruct (handle_record_delta w fuel record st) as (new1 & Hnew1 & _).
    destruct (handle_record w fuel record st) as [[[err|]|msg|] st1];
      cbn [snd] in Hnew1 |- *; try (exists new1; exact Hnew1).
    destruct (IH st1) as (new2 & Hnew2). exists (new1 ++ new2).
    now rewrite Hnew2, Hnew1, app_assoc.
Qed.

(** X11: whatever the outcome of the handler, every launch request it has
    made is the fixed request of [RunFargateTask] (one task, Fargate, tags
    from the task definition, public IP) on the cluster, task definition,
    subnets and security groups of the task configuration, with the
    client token generated from the [AuthToken] of a message of the batch:
    a token of 44 characters. *)
Theorem handler_launch_requests (w : World) (fuel : nat) (event : Event) :
  forall (st : State) (c : ECSTaskConfig) (new : list Effect)
         (input : ecs.RunTaskInput) (out : ecs.RunTaskOutput + error),
    taskCfg (globals st) = Some c ->
    trace (snd (handler w fuel event st)) = trace st ++ new ->
    In (RunTask input out) new ->
    exists record p,
      In record (Records event)
      /\ json_Unmarshal w (Body record) = inl (Some p)
      /\ input = run_input (with_ClientToken c (GenerateClientToken (AuthToken p)))
      /\ ecs.in_ClientToken input = Some (GenerateClientToken (AuthToken p))
      /\ String.length (GenerateClientToken (AuthToken p)) = 44%nat.
Proof.
  unfold handler. induction (Records event) as [|record records IH];
    intros st c new input out Hc Htrace Hin.
  - cbn in Htrace. rewrite <- (app_nil_r (trace st)) in Htrace at 1.
    apply app_inv_head in Htrace. subst new. destruct Hin.
  - rewrite handle_records_cons in Htrace.
    destruct (handle_record_delta w fuel record st) as (new1 & Hnew1 & Hlaunch1).
    pose proof (handle_record_globals w fuel record st) as Hglobals. cbv zeta in Hglobals.
    assert (Hfirst : In (RunTask input out) new1 ->
              exists record' p,
                In record' (record :: records)
                /\ json_Unmarshal w (Body record') = inl (Some p)
                /\ input = run_input (with_ClientToken c (GenerateClientToken (AuthToken p)))
                /\ ecs.in_ClientToken input = Some (GenerateClientToken (AuthToken p))
                /\ String.length (GenerateClientToken (AuthToken p)) = 44%nat).
    { intros Hin1. destruct (Hlaunch1 _ _ Hin1) as (p & c0 & Hp & Hc0 & ->).
      rewrite Hc in Hc0. injection Hc0 as <-.
      exists record, p. repeat split; try assumption; [left; reflexivity|].
      rewrite GenerateClientToken_unfold. apply encoded_digest_length. }
    destruct (handle_record w fuel record st) as [[[err|]|msg|] st1];
      cbv beta iota in Htrace; cbn [snd] in Htrace, Hnew1, Hglobals;
      try (rewrite Hnew1 in Htrace; apply app_inv_head in Htrace; subst new1;
           exact (Hfirst Hin)).
    assert (Hc1 : exists t, taskCfg (globals st1) = Some (with_ClientToken c t)).
    { destruct Hglobals as [->|(p & c0 & _ & Hc0 & ->)].
      - exists (ClientToken c). rewrite Hc. destruct c; reflexivity.
      - rewrite Hc in Hc0. injection Hc0 as <-. eexists. reflexivity. }
    destruct Hc1 as [t Hc1].
    destruct (handle_record_delta_rest w fuel records st1) as (new2 & Hnew2).
    rewrite Hnew2, Hnew1, <- app_assoc in Htrace. apply app_inv_head in Htrace.
    subst new. apply in_app_or in Hin as [Hin|Hin]; [exact (Hfirst Hin)|].
    destruct (IH st1 (with_ClientToken c t) new2 input out Hc1 Hnew2 Hin)
      as (record' & p & Hin' & Hp & Hinput & Htoken & Hlen).
    exists record', p. repeat split; try assumption. right. exact Hin'.
Qed.

Lemma handler_launch_requests_witness :
  let w := Scripted.world [Scripted.payload1] Scripted.launched1
             Scripted.running1 Scripted.ok200 in
  exists record p,
    In record [Scripted.message Scripted.payload1]
    /\ json_Unmarshal w (Body record) = inl (Some p)
    /\ String.length (GenerateClientToken (AuthToken p)) = 44%nat.
Proof.
  intros w.
  set (event := {| Records := [Scripted.message Scripted.payload1] |}).
  destruct (handler_launch_requests w 5 event Scripted.st0 Scripted.taskCfg0
              (trace (snd (handler w 5 event Scripted.st0)))
              (run_input (with_ClientToken Scripted.taskCfg0
                            (GenerateClientToken (AuthToken Scripted.payload1))))
              Scripted.launched1 eq_refl eq_refl)
    as (record & p & Hin & Hp & _ & _ & Hlen).
  - left. vm_compute. reflexivity.
  - exists record, p. repeat split; assumption.
Defined.

(** X12: a message whose body is the JSON value null decodes without
    error to a nil payload, and a nil task configuration cannot store the
    token: in both cases the handler panics on the nil pointer before any
    call is made for the message, and the messages that follow are not
    handled. *)
Theorem handler_nil_pointer (w : World) (fuel : nat) (record : SQSMessage)
    (rest : list SQSMessage) (st : State) :
  (json_Unmarshal w (Body record) = inl None ->
   handler w fuel {| Records := record :: rest |} st = (Panic nil_dereference, st))
  /\ (forall p,
        json_Unmarshal w (Body record) = inl (Some p) ->
        taskCfg (globals st) = None ->
        handler w fuel {| Records := record :: rest |} st = (Panic nil_dereference, st)).
Proof.
  unfold handler. cbn [Records]. split.
  - intros H. now rewrite handle_records_cons, (handle_record_null w fuel record st H).
  - intros p H Hnil.
    now rewrite handle_records_cons, (handle_record_nil_taskCfg w fuel record st p H Hnil).
Qed.

Lemma handler_nil_pointer_witness :
  let w := Scripted.world [Scripted.payload1] Scripted.launched1
             Scripted.running1 Scripted.ok200 in
  handler w 5 {| Records := [ {| MessageId := "m-null"; Body := "null" |};
                              Scripted.message Scripted.payload1 ] |} Scripted.st0
  = (Panic nil_dereference, Scripted.st0).
Proof.
  intros w. apply (proj1 (handler_nil_pointer w 5 _ _ Scripted.st0)).
  vm_compute. reflexivity.
Defined.

(** ** The client token and the digest *)

Lemma std_index_enc i : std_index (base64.enc i) = Z.land i 0x3f.
Proof.
  unfold base64.enc.
  assert (H : 0 <= Z.land i 0x3f < 64).
  { change 0x3f with (Z.ones 6). rewrite Z.land_ones by lia.
    apply Z.mod_pos_bound. lia. }
  rewrite <- (Z2Nat.id (Z.land i 0x3f)) at 2 by lia.
  assert (Hn : (Z.to_nat (Z.land i 0x3f) < 64)%nat) by lia.
  revert Hn. generalize (Z.to_nat (Z.land i 0x3f)). intros n Hn.
  do 64 (destruct n as [|n]; [reflexivity|]). lia.
Qed.

Lemma enc_inj i j : base64.enc i = base64.enc j -> Z.land i 0x3f = Z.land j 0x3f.
Proof. intros H. rewrite <- !std_index_enc. now rewrite H. Qed.

Lemma land_shiftl_low x b k :
  0 <= k -> 0 <= b < 2 ^ k -> Z.land (Z.shiftl x k) b = 0.
Proof.
  intros Hk Hb. apply Z.bits_inj'. intros n Hn.
  rewrite Z.land_spec, Z.bits_0.
  destruct (Z.lt_ge_cases n k) as [Hlt|Hge].
  - rewrite Z.shiftl_spec_low by exact Hlt. reflexivity.
  - destruct (Z.eq_dec b 0) as [->|Hb0].
    + rewrite Z.bits_0. apply andb_false_r.
    + rewrite (Z.bits_above_log2 b n); [apply andb_false_r|lia|].
      assert (Z.log2 b < k) by (apply Z.log2_lt_pow2; lia). lia.
Qed.

Lemma lor_shiftl_low x b k :
  0 <= k -> 0 <= b < 2 ^ k -> Z.lor (Z.shiftl x k) b = x * 2 ^ k + b.
Proof.
  intros Hk Hb. pose proof (land_shiftl_low x b k Hk Hb) as Hland.
  rewrite <- (Z.lxor_lor _ _ Hland), <- (Z.add_nocarry_lxor _ _ Hland).
  rewrite Z.shiftl_mul_pow2 by exact Hk. reflexivity.
Qed.

(** The 24-bit group of three bytes, as a sum. *)
Lemma group_value b0 b1 b2 :
  is_byte b0 -> is_byte b1 -> is_byte b2 ->
  Z.lor (Z.lor (Z.shiftl b0 16) (Z.shiftl b1 8)) b2 = b0 * 65536 + b1 * 256 + b2.
Proof.
  unfold is_byte. intros H0 H1 H2.
  rewrite (Z.shiftl_mul_pow2 b1 8) by lia.
  rewrite (lor_shiftl_low b0 (b1 * 2 ^ 8) 16) by lia.
  replace (b0 * 2 ^ 16 + b1 * 2 ^ 8) with (Z.shiftl (b0 * 256 + b1) 8)
    by (rewrite Z.shiftl_mul_pow2; lia).
  rewrite (lor_shiftl_low (b0 * 256 + b1) b2 8) by lia. lia.
Qed.

Lemma sextet v k : 0 <= k -> Z.land (Z.shiftr v k) 0x3f = (v / 2 ^ k) mod 64.
Proof.
  intros Hk. change 0x3f with (Z.ones 6).
  rewrite Z.land_ones by lia. rewrite Z.shiftr_div_pow2 by exact Hk. reflexivity.
Qed.

Lemma sextet_0 v : Z.land v 0x3f = v mod 64.
Proof. change 0x3f with (Z.ones 6). rewrite Z.land_ones by lia. reflexivity. Qed.

(** The encoder loses nothing: on byte lists of one length it is
    injective. *)
Lemma EncodeToString_inj l1 :
  forall l2,
    Forall is_byte l1 -> Forall is_byte l2 -> length l1 = length l2 ->
    base64.EncodeToString l1 = base64.EncodeToString l2 -> l1 = l2.
Proof.
  induction l1 as [|a|a b|a b c l1 IH] using list_ind3;
    intros l2 H1 H2 Hlen Henc.
  - destruct l2; [reflexivity|discriminate Hlen].
  - destruct l2 as [|a' [|? ?]]; try discriminate Hlen.
    cbn [base64.EncodeToString] in Henc. injection Henc as E1 E2.
    apply enc_inj in E1, E2. rewrite !sextet in E1, E2 by lia.
    rewrite !Z.shiftl_mul_pow2 in E1, E2 by lia.
    inversion H1 as [|? ? Ha _]; inversion H2 as [|? ? Ha' _]; subst.
    unfold is_byte in *. f_equal. change (2 ^ 16) with 65536 in *.
    change (2 ^ 18) with 262144 in *. change (2 ^ 12) with 4096 in *.
    Z.div_mod_to_equations. lia.
  - destruct l2 as [|a' [|b' [|? ?]]]; try discriminate Hlen.
    cbn [base64.EncodeToString] in Henc. injection Henc as E1 E2 E3.
    apply enc_inj in E1, E2, E3. rewrite !sextet in E1, E2, E3 by lia.
    inversion H1 as [|? ? Ha H1']; inversion H1' as [|? ? Hb _];
      inversion H2 as [|? ? Ha' H2']; inversion H2' as [|? ? Hb' _]; subst.
    rewrite !(Z.shiftl_mul_pow2 _ 8) in E1, E2, E3 by lia.
    rewrite !lor_shiftl_low in E1, E2, E3 by (unfold is_byte in *; lia).
    unfold is_byte in *.
    change (2 ^ 16) with 65536 in *. change (2 ^ 8) with 256 in *.
    change (2 ^ 18) with 262144 in *. change (2 ^ 12) with 4096 in *.
    change (2 ^ 6) with 64 in *.
    assert (a = a' /\ b = b') as [-> ->]; [|reflexivity].
    Z.div_mod_to_equations. lia.
  - destruct l2 as [|a' [|b' [|c' l2]]]; try discriminate Hlen.
    cbn [base64.EncodeToString] in Henc. injection Henc as E1 E2 E3 E4 Erest.
    apply enc_inj in E1, E2, E3, E4.
    rewrite !sextet in E1, E2, E3 by lia. rewrite !sextet_0 in E4.
    inversion H1 as [|? ? Ha H1']; inversion H1' as [|? ? Hb H1''];
      inversion H1'' as [|? ? Hc H1'''];
      inversion H2 as [|? ? Ha' H2']; inversion H2' as [|? ? Hb' H2''];
      inversion H2'' as [|? ? Hc' H2''']; subst.
    rewrite !group_value in E1, E2, E3, E4 by assumption.
    rewrite (IH l2 H1''' H2''') by (cbn in Hlen; congruence).
    unfold is_byte in *.
    change (2 ^ 18) with 262144 in *. change (2 ^ 12) with 4096 in *.
    change (2 ^ 6) with 64 in *.
    assert (a = a' /\ b = b' /\ c = c') as (-> & -> & ->); [|reflexivity].
    Z.div_mod_to_equations. lia.
Qed.

Lemma be32_bytes x : Forall is_byte (sha256.be32 x).
Proof.
  unfold sha256.be32, is_byte. change 0xff with (Z.ones 8).
  repeat constructor; rewrite Z.land_ones by lia;
    try (apply Z.mod_pos_bound; lia);
    pose proof (Z.mod_pos_bound (Z.shiftr x 24) (2 ^ 8));
    pose proof (Z.mod_pos_bound (Z.shiftr x 16) (2 ^ 8));
    pose proof (Z.mod_pos_bound (Z.shiftr x 8) (2 ^ 8));
    pose proof (Z.mod_pos_bound x (2 ^ 8)); lia.
Qed.

Lemma Sum256_bytes msg : Forall is_byte (sha256.Sum256 msg).
Proof.
  unfold sha256.Sum256.
  destruct (sha256.blocks _ _ _) as [[[[[[[a b] c] d] e] f] g] h].
  rewrite !Forall_app. repeat split; apply be32_bytes.
Qed.

(** X14: two inputs get the same client token exactly when their SHA-256
    digests are equal: the base64 encoding loses nothing of the digest and
    the truncation to 64 characters never cuts. *)
Theorem GenerateClientToken_eq_iff (input1 input2 : string) :
  GenerateClientToken input1 = GenerateClientToken input2
  <-> sha256.Sum256 (bytes_of_string input1) = sha256.Sum256 (bytes_of_string input2).
Proof.
  rewrite !GenerateClientToken_unfold. split.
  - apply EncodeToString_inj; try apply Sum256_bytes.
    now rewrite !Sum256_length.
  - intros ->. reflexivity.
Qed.

Lemma handler_keeps_static_configuration_witness :
  let w := Scripted.world [Scripted.payload1] Scripted.launched1
             Scripted.running1 Scripted.rejected500 in
  let event := {| Records := [Scripted.message Scripted.payload1] |} in
  fst (handler w 5 event Scripted.st0)
  = Val (Some (errors_New "unexpected status code: 500"))
  /\ taskCfg (globals (snd (handler w 5 event Scripted.st0)))
     = Some (with_ClientToken Scripted.taskCfg0
               (GenerateClientToken (AuthToken Scripted.payload1))).
Proof.
  intros w event. split; [vm_compute; reflexivity|].
  destruct (handler_keeps_static_configuration w 5 event Scripted.st0)
    as (_ & _ & _ & Hwrite).
  destruct (Hwrite [] (Scripted.message Scripted.payload1) [] Scripted.st0
              Scripted.payload1 Scripted.taskCfg0 eq_refl eq_refl)
    as [_ Hleft].
  - vm_compute. reflexivity.
  - reflexivity.
  - apply Hleft. left. reflexivity.
Defined.
